(** * RD03D: frame synchronisation and target decoding of the RD-03D radar driver

    A shallow embedding of [src/src/RD03D.cpp] and [src/src/RD03D.h]:
    the byte-at-a-time parser ([processByte]), the frame decoder
    ([processFrame], [parseTarget]), the polling entry point ([update]) and
    the small query surface, followed by the properties of the frame format
    that the driver's specification states. *)

From Stdlib Require Import ZArith Lia Bool.
From Stdlib Require Import Strings.Byte Floats.SpecFloat.
From stdpp Require Import base option list.

Local Open Scope Z_scope.

(** ** Machine integers

    The driver's integers are fixed-width; they are kept as [Z] with the
    wrap-around of each width written out. *)

Definition u8 (z : Z) : Z := z mod 256.
Definition u16 (z : Z) : Z := z mod 65536.
Definition u32 (z : Z) : Z := z mod 4294967296.

(** Conversion to [int16_t]: the two's complement reading of the low 16 bits. *)
Definition i16 (z : Z) : Z := (z + 32768) mod 65536 - 32768.

(** The value of a [uint8_t] as an integer. *)
Definition byte_val (b : byte) : Z := Z.of_N (Byte.to_N b).

(** ** Single-precision floats

    [float] is IEEE 754 binary32 (24 bits of precision, maximal exponent 128),
    taken from the Standard Library's executable specification; every
    operation rounds to nearest, ties to even, on its own. *)

Definition float : Type := spec_float.

Definition f32_prec : Z := 24.
Definition f32_emax : Z := 128.

Definition f32_of_Z (z : Z) : float := binary_normalize f32_prec f32_emax z 0 false.
Definition f32_zero : float := f32_of_Z 0.
Definition f32_add : float -> float -> float := SFadd f32_prec f32_emax.
Definition f32_mul : float -> float -> float := SFmul f32_prec f32_emax.
Definition f32_div : float -> float -> float := SFdiv f32_prec f32_emax.
Definition sqrtf : float -> float := SFsqrt f32_prec f32_emax.

(** ** Configuration constants (RD03D.h) *)

Definition RD03D_MAX_TARGETS : Z := 3.
Definition RD03D_FRAME_SIZE : Z := 30.
Definition RD03D_FRAME_HEADER_SIZE : Z := 4.
Definition RD03D_TARGET_DATA_SIZE : Z := 8.
Definition RD03D_DEFAULT_TIMEOUT : Z := 100.

(** Frame header: AA FF 03 00 *)
Definition FRAME_HEADER : list byte := [xaa; xff; x03; x00].

(** ** Data model *)

Record RD03D_Target : Type := mkTarget {
  t_x : Z;              (* int16_t, mm *)
  t_y : Z;              (* int16_t, mm *)
  t_speed : Z;          (* int16_t, cm/s *)
  t_distanceRaw : Z;    (* uint16_t *)
  t_distance : float;   (* cm *)
  t_angle : float;      (* degrees *)
  t_valid : bool
}.

(** [RD03D_Target::clear] assigns every field. *)
Definition clear : RD03D_Target :=
  {| t_x := 0; t_y := 0; t_speed := 0; t_distanceRaw := 0;
     t_distance := f32_zero; t_angle := f32_zero; t_valid := false |}.

Inductive RD03D_ParserState : Type :=
  | RD03D_SYNC_HEADER
  | RD03D_READ_DATA.

(** A callback is a function pointer supplied by the user; its body is not
    part of the driver.  It is identified by a number, and an invocation is
    recorded as an event holding the pointer called, the contents of the
    target array it was handed and the count argument.  The callback is
    taken to return without writing to the array or calling back into the
    driver. *)
Definition RD03D_FrameCallback : Type := nat.

Record Invocation : Type := mkInvocation {
  inv_callback : RD03D_FrameCallback;
  inv_targets : list RD03D_Target;
  inv_count : Z
}.

Record RD03D : Type := mkRD03D {
  _serial : bool;                           (* is a port attached (non-null) *)
  _targets : list RD03D_Target;             (* RD03D_MAX_TARGETS entries *)
  _frameCallback : option RD03D_FrameCallback;
  _frameBuf : list byte;                    (* RD03D_FRAME_SIZE entries *)
  _frameIdx : Z;                            (* uint8_t *)
  _syncIdx : Z;                             (* uint8_t *)
  _parserState : RD03D_ParserState;
  _lastByteTime : Z;                        (* uint32_t *)
  _lastFrameTime : Z;                       (* uint32_t *)
  _timeoutMs : Z;                           (* uint16_t *)
  _frameCount : Z;                          (* uint32_t *)
  _errorCount : Z;                          (* uint32_t *)
  calls : list Invocation                   (* callback invocations so far, oldest first *)
}.

(** Field updates of the driver object. *)

Definition with_serial (v : bool) (s : RD03D) : RD03D :=
  mkRD03D v (_targets s) (_frameCallback s) (_frameBuf s) (_frameIdx s) (_syncIdx s)
    (_parserState s) (_lastByteTime s) (_lastFrameTime s) (_timeoutMs s)
    (_frameCount s) (_errorCount s) (calls s).

Definition with_targets (v : list RD03D_Target) (s : RD03D) : RD03D :=
  mkRD03D (_serial s) v (_frameCallback s) (_frameBuf s) (_frameIdx s) (_syncIdx s)
    (_parserState s) (_lastByteTime s) (_lastFrameTime s) (_timeoutMs s)
    (_frameCount s) (_errorCount s) (calls s).

Definition with_frameCallback (v : option RD03D_FrameCallback) (s : RD03D) : RD03D :=
  mkRD03D (_serial s) (_targets s) v (_frameBuf s) (_frameIdx s) (_syncIdx s)
    (_parserState s) (_lastByteTime s) (_lastFrameTime s) (_timeoutMs s)
    (_frameCount s) (_errorCount s) (calls s).

Definition with_frameBuf (v : list byte) (s : RD03D) : RD03D :=
  mkRD03D (_serial s) (_targets s) (_frameCallback s) v (_frameIdx s) (_syncIdx s)
    (_parserState s) (_lastByteTime s) (_lastFrameTime s) (_timeoutMs s)
    (_frameCount s) (_errorCount s) (calls s).

Definition with_frameIdx (v : Z) (s : RD03D) : RD03D :=
  mkRD03D (_serial s) (_targets s) (_frameCallback s) (_frameBuf s) v (_syncIdx s)
    (_parserState s) (_lastByteTime s) (_lastFrameTime s) (_timeoutMs s)
    (_frameCount s) (_errorCount s) (calls s).

Definition with_syncIdx (v : Z) (s : RD03D) : RD03D :=
  mkRD03D (_serial s) (_targets s) (_frameCallback s) (_frameBuf s) (_frameIdx s) v
    (_parserState s) (_lastByteTime s) (_lastFrameTime s) (_timeoutMs s)
    (_frameCount s) (_errorCount s) (calls s).

Definition with_parserState (v : RD03D_ParserState) (s : RD03D) : RD03D :=
  mkRD03D (_serial s) (_targets s) (_frameCallback s) (_frameBuf s) (_frameIdx s) (_syncIdx s)
    v (_lastByteTime s) (_lastFrameTime s) (_timeoutMs s)
    (_frameCount s) (_errorCount s) (calls s).

Definition with_lastByteTime (v : Z) (s : RD03D) : RD03D :=
  mkRD03D (_serial s) (_targets s) (_frameCallback s) (_frameBuf s) (_frameIdx s) (_syncIdx s)
    (_parserState s) v (_lastFrameTime s) (_timeoutMs s)
    (_frameCount s) (_errorCount s) (calls s).

Definition with_lastFrameTime (v : Z) (s : RD03D) : RD03D :=
  mkRD03D (_serial s) (_targets s) (_frameCallback s) (_frameBuf s) (_frameIdx s) (_syncIdx s)
    (_parserState s) (_lastByteTime s) v (_timeoutMs s)
    (_frameCount s) (_errorCount s) (calls s).

Definition with_timeoutMs (v : Z) (s : RD03D) : RD03D :=
  mkRD03D (_serial s) (_targets s) (_frameCallback s) (_frameBuf s) (_frameIdx s) (_syncIdx s)
    (_parserState s) (_lastByteTime s) (_lastFrameTime s) v
    (_frameCount s) (_errorCount s) (calls s).

Definition with_frameCount (v : Z) (s : RD03D) : RD03D :=
  mkRD03D (_serial s) (_targets s) (_frameCallback s) (_frameBuf s) (_frameIdx s) (_syncIdx s)
    (_parserState s) (_lastByteTime s) (_lastFrameTime s) (_timeoutMs s)
    v (_errorCount s) (calls s).

Definition with_errorCount (v : Z) (s : RD03D) : RD03D :=
  mkRD03D (_serial s) (_targets s) (_frameCallback s) (_frameBuf s) (_frameIdx s) (_syncIdx s)
    (_parserState s) (_lastByteTime s) (_lastFrameTime s) (_timeoutMs s)
    (_frameCount s) v (calls s).

Definition with_calls (v : list Invocation) (s : RD03D) : RD03D :=
  mkRD03D (_serial s) (_targets s) (_frameCallback s) (_frameBuf s) (_frameIdx s) (_syncIdx s)
    (_parserState s) (_lastByteTime s) (_lastFrameTime s) (_timeoutMs s)
    (_frameCount s) (_errorCount s) v.

(** ** Arrays

    C arrays are lists of the declared size.  An access outside the array is
    undefined behaviour in the source; here it yields [None], so that a run
    returning [Some] has stayed inside every array it touched. *)

Definition arr_get {A : Type} (a : list A) (i : Z) : option A :=
  if 0 <=? i then a !! Z.to_nat i else None.

Definition arr_set {A : Type} (a : list A) (i : Z) (v : A) : option (list A) :=
  if (0 <=? i) && (i <? Z.of_nat (length a)) then Some (<[Z.to_nat i := v]> a) else None.

(** ** Input

    [millis()] is read from the environment.  A received byte comes with the
    clock reading [processByte] takes on entry and the reading
    [processFrame] takes should that byte complete a frame. *)

Record Rx : Type := mkRx {
  rx_byte : byte;
  rx_millis : Z;
  rx_millis_frame : Z
}.

(** ** A platform instance

    The driver leaves [atan2f] and the division by [PI] to the platform.
    The properties below hold for every platform; this instance is the one
    at which their hypotheses are shown to be met by concrete inputs.
    [PI] is taken rounded to single precision, as on targets whose [double]
    is a [float]. *)

Definition sample_atan2f (a b : float) : float := f32_zero.

Definition sample_div_PI (e : float) : float :=
  f32_div e (S754_finite false 13176795 (-22)).

Section Driver.

(** Taken from the platform: [atan2f] of the C library, and the division
    of a [float] by Arduino.h's [PI] macro with the result stored back
    into a [float].  Neither is defined in the repository. *)
Variable atan2f : float -> float -> float.
Variable div_PI : float -> float.

(** [RD03D::RD03D()].  The constructor leaves [_frameBuf] unassigned; its
    contents are whatever the storage held, [buf0]. *)
Definition RD03D_new (buf0 : list byte) : RD03D :=
  {| _serial := false;
     _targets := [clear; clear; clear];
     _frameCallback := None;
     _frameBuf := buf0;
     _frameIdx := 0;
     _syncIdx := 0;
     _parserState := RD03D_SYNC_HEADER;
     _lastByteTime := 0;
     _lastFrameTime := 0;
     _timeoutMs := RD03D_DEFAULT_TIMEOUT;
     _frameCount := 0;
     _errorCount := 0;
     calls := [] |}.

Definition resetParser (s : RD03D) : RD03D :=
  with_frameIdx 0 (with_syncIdx 0 (with_parserState RD03D_SYNC_HEADER s)).

(** [RD03D::begin], as far as the driver object is concerned: the port is
    attached, the parser reset and both timestamps set from [millis()].
    Configuring and flushing the port and sending the mode command act on
    the hardware only. *)
Definition begin (now1 now2 : Z) (s : RD03D) : RD03D :=
  with_lastFrameTime now2 (with_lastByteTime now1 (resetParser (with_serial true s))).

Definition onFrame (callback : option RD03D_FrameCallback) (s : RD03D) : RD03D :=
  with_frameCallback callback s.

(** [RD03D::getTarget(uint8_t index)]: the argument is converted to
    [uint8_t] on the way in. *)
Definition getTarget (index : Z) (s : RD03D) : option RD03D_Target :=
  let index := u8 index in
  if RD03D_MAX_TARGETS <=? index then None else arr_get (_targets s) index.

Definition getTargets (s : RD03D) : list RD03D_Target := _targets s.

(** The counting loop of [getTargetCount], [n] iterations left. *)
Fixpoint getTargetCount_loop (n : nat) (i count : Z) (ts : list RD03D_Target) : option Z :=
  match n with
  | O => Some count
  | S n' =>
      t ← arr_get ts i;
      getTargetCount_loop n' (u8 (i + 1)) (if t_valid t then u8 (count + 1) else count) ts
  end.

Definition getTargetCount (s : RD03D) : option Z :=
  getTargetCount_loop (Z.to_nat RD03D_MAX_TARGETS) 0 0 (_targets s).

Definition getFrameCount (s : RD03D) : Z := _frameCount s.
Definition getErrorCount (s : RD03D) : Z := _errorCount s.

(** [RD03D::setTimeout(uint16_t timeoutMs)]: the argument is converted to
    [uint16_t] on the way in, and stored in a [uint16_t]. *)
Definition setTimeout (timeoutMs : Z) (s : RD03D) : RD03D :=
  with_timeoutMs (u16 timeoutMs) s.

Definition isConnected (now : Z) (s : RD03D) : bool :=
  u32 (now - _lastFrameTime s) <? 1000.

(** [RD03D::parseTarget(index, data)], [data] pointing at
    [_frameBuf[data]]. *)
Definition parseTarget (index data : Z) (s : RD03D) : option RD03D :=
  if RD03D_MAX_TARGETS <=? index then Some s else
  d0 ← arr_get (_frameBuf s) data;
  d1 ← arr_get (_frameBuf s) (data + 1);
  d2 ← arr_get (_frameBuf s) (data + 2);
  d3 ← arr_get (_frameBuf s) (data + 3);
  d4 ← arr_get (_frameBuf s) (data + 4);
  d5 ← arr_get (_frameBuf s) (data + 5);
  d6 ← arr_get (_frameBuf s) (data + 6);
  d7 ← arr_get (_frameBuf s) (data + 7);
  let raw_x := u16 (Z.lor (byte_val d0) (Z.shiftl (byte_val d1) 8)) in
  let raw_y := u16 (Z.lor (byte_val d2) (Z.shiftl (byte_val d3) 8)) in
  let raw_speed := u16 (Z.lor (byte_val d4) (Z.shiftl (byte_val d5) 8)) in
  let raw_dist := u16 (Z.lor (byte_val d6) (Z.shiftl (byte_val d7) 8)) in
  let valid := negb (raw_x =? 0) || negb (raw_y =? 0) in
  if negb valid then
    ts ← arr_set (_targets s) index clear;
    Some (with_targets ts s)
  else
    let x_val := i16 (Z.land raw_x 0x7FFF) in
    let x_val := if Z.land raw_x 0x8000 =? 0 then i16 (- x_val) else x_val in
    let y_val := i16 (raw_y - 0x8000) in
    let spd_val := i16 (Z.land raw_speed 0x7FFF) in
    let spd_val := if Z.land raw_speed 0x8000 =? 0 then i16 (- spd_val) else spd_val in
    let x_mm := f32_of_Z x_val in
    let y_mm := f32_of_Z y_val in
    let t :=
      {| t_x := x_val;
         t_y := y_val;
         t_speed := spd_val;
         t_distanceRaw := raw_dist;
         t_distance :=
           f32_div (sqrtf (f32_add (f32_mul x_mm x_mm) (f32_mul y_mm y_mm))) (f32_of_Z 10);
         t_angle := div_PI (f32_mul (atan2f x_mm y_mm) (f32_of_Z 180));
         t_valid := valid |} in
    ts ← arr_set (_targets s) index t;
    Some (with_targets ts s).

(** [RD03D::processFrame()]; [now] is its [millis()] reading. *)
Definition processFrame (now : Z) (s : RD03D) : option RD03D :=
  let s := with_frameCount (u32 (_frameCount s + 1)) s in
  let s := with_lastFrameTime now s in
  s ← parseTarget 0 4 s;
  s ← parseTarget 1 12 s;
  s ← parseTarget 2 20 s;
  match _frameCallback s with
  | Some cb =>
      count ← getTargetCount s;
      Some (with_calls (calls s ++ [mkInvocation cb (_targets s) count]) s)
  | None => Some s
  end.

(** [RD03D::processByte(b)]; [now] is the [millis()] reading on entry and
    [now_frame] the one [processFrame] takes.  The [default] branch of the
    switch is not reachable: the enumeration has the two values below. *)
Definition processByte (now now_frame : Z) (b : byte) (s : RD03D) : option RD03D :=
  let s := with_lastByteTime now s in
  match _parserState s with
  | RD03D_SYNC_HEADER =>
      h ← arr_get FRAME_HEADER (_syncIdx s);
      if Byte.eqb b h then
        buf ← arr_set (_frameBuf s) (_syncIdx s) b;
        let s := with_frameBuf buf s in
        let s := with_syncIdx (u8 (_syncIdx s + 1)) s in
        if RD03D_FRAME_HEADER_SIZE <=? _syncIdx s then
          Some (with_frameIdx RD03D_FRAME_HEADER_SIZE (with_parserState RD03D_READ_DATA s))
        else Some s
      else
        h0 ← arr_get FRAME_HEADER 0;
        if Byte.eqb b h0 then
          let s := with_syncIdx 1 s in
          buf ← arr_set (_frameBuf s) 0 b;
          Some (with_frameBuf buf s)
        else Some (with_syncIdx 0 s)
  | RD03D_READ_DATA =>
      buf ← arr_set (_frameBuf s) (_frameIdx s) b;
      let s := with_frameBuf buf s in
      let s := with_frameIdx (u8 (_frameIdx s + 1)) s in
      if RD03D_FRAME_SIZE <=? _frameIdx s then
        b28 ← arr_get (_frameBuf s) 28;
        s ← (if Byte.eqb b28 x55 then
               b29 ← arr_get (_frameBuf s) 29;
               if Byte.eqb b29 xcc then processFrame now_frame s
               else Some (with_errorCount (u32 (_errorCount s + 1)) s)
             else Some (with_errorCount (u32 (_errorCount s + 1)) s));
        Some (resetParser s)
      else Some s
  end.

(** The receive loop of [update]: every available byte goes through
    [processByte], in order. *)
Fixpoint processBytes (rx : list Rx) (s : RD03D) : option RD03D :=
  match rx with
  | [] => Some s
  | r :: rx' =>
      s ← processByte (rx_millis r) (rx_millis_frame r) (rx_byte r) s;
      processBytes rx' s
  end.

Definition timed_out (now : Z) (s : RD03D) : bool :=
  match _parserState s with
  | RD03D_SYNC_HEADER => false
  | RD03D_READ_DATA => _timeoutMs s <? u32 (now - _lastByteTime s)
  end.

(** [RD03D::update()]; [now] is its [millis()] reading and [rx] what the
    port delivers while the loop runs. *)
Definition update (now : Z) (rx : list Rx) (s : RD03D) : option RD03D :=
  if negb (_serial s) then Some s else
  let s := if timed_out now s
           then resetParser (with_errorCount (u32 (_errorCount s + 1)) s)
           else s in
  processBytes rx s.

(** ** The frame format as the specification words it

    A frame is a 4-byte header, three 8-byte target blocks and a 2-byte
    tail marker.  The definitions of this part follow the specification's
    description of the decoder and are what [parseTarget] is compared
    with. *)

Record Block : Type := mkBlock {
  blk0 : byte; blk1 : byte; blk2 : byte; blk3 : byte;
  blk4 : byte; blk5 : byte; blk6 : byte; blk7 : byte
}.

Definition block_bytes (k : Block) : list byte :=
  [blk0 k; blk1 k; blk2 k; blk3 k; blk4 k; blk5 k; blk6 k; blk7 k].

Definition FRAME_TAIL : list byte := [x55; xcc].

Definition frame_bytes (k1 k2 k3 : Block) : list byte :=
  FRAME_HEADER ++ block_bytes k1 ++ block_bytes k2 ++ block_bytes k3 ++ FRAME_TAIL.

(** A little-endian unsigned 16-bit field. *)
Definition spec_le16 (lo hi : byte) : Z := byte_val lo + 256 * byte_val hi.

Definition rawX (k : Block) : Z := spec_le16 (blk0 k) (blk1 k).
Definition rawY (k : Block) : Z := spec_le16 (blk2 k) (blk3 k).
Definition rawSpeed (k : Block) : Z := spec_le16 (blk4 k) (blk5 k).
Definition rawDistanceCode (k : Block) : Z := spec_le16 (blk6 k) (blk7 k).

(** Sign and magnitude with a polarity flag in bit 15: flag set, positive. *)
Definition spec_sign_magnitude (raw : Z) : Z :=
  let magnitude := Z.land raw 0x7FFF in
  if Z.testbit raw 15 then magnitude else - magnitude.

(** Fixed offset of 0x8000. *)
Definition spec_offset (raw : Z) : Z := raw - 0x8000.

Definition spec_valid (k : Block) : bool :=
  negb (rawX k =? 0) || negb (rawY k =? 0).

(** The expected decode of one block.  The derived fields are the
    specification's formulas evaluated in single precision. *)
Definition spec_target (k : Block) : RD03D_Target :=
  if spec_valid k then
    let x := spec_sign_magnitude (rawX k) in
    let y := spec_offset (rawY k) in
    {| t_x := x;
       t_y := y;
       t_speed := spec_sign_magnitude (rawSpeed k);
       t_distanceRaw := rawDistanceCode k;
       t_distance :=
         f32_div (sqrtf (f32_add (f32_mul (f32_of_Z x) (f32_of_Z x))
                                 (f32_mul (f32_of_Z y) (f32_of_Z y))))
                 (f32_of_Z 10);
       t_angle := div_PI (f32_mul (atan2f (f32_of_Z x) (f32_of_Z y)) (f32_of_Z 180));
       t_valid := true |}
  else
    {| t_x := 0; t_y := 0; t_speed := 0; t_distanceRaw := 0;
       t_distance := S754_zero false; t_angle := S754_zero false;
       t_valid := false |}.

(** The number of valid entries among the decoded targets. *)
Definition spec_count (ts : list RD03D_Target) : Z :=
  Z.of_nat (length (List.filter t_valid ts)).

(** The block [k] lies in the buffer from position [data] on. *)
Definition block_at (buf : list byte) (data : Z) (k : Block) : Prop :=
  0 <= data /\ take 8 (drop (Z.to_nat data) buf) = block_bytes k.

(** The block that [processFrame] decodes into slot [n] of a full buffer. *)
Definition frame_block (buf : list byte) (n : nat) : Block :=
  let at_ (i : nat) := nth (4 + 8 * n + i) buf x00 in
  mkBlock (at_ 0%nat) (at_ 1%nat) (at_ 2%nat) (at_ 3%nat)
          (at_ 4%nat) (at_ 5%nat) (at_ 6%nat) (at_ 7%nat).

Definition spec_targets (k1 k2 k3 : Block) : list RD03D_Target :=
  [spec_target k1; spec_target k2; spec_target k3].

(** What the callback is handed for a frame made of [k1], [k2], [k3]. *)
Definition spec_invocation (cb : RD03D_FrameCallback) (k1 k2 k3 : Block) : Invocation :=
  mkInvocation cb (spec_targets k1 k2 k3) (spec_count (spec_targets k1 k2 k3)).

(** The effect of dispatching a frame made of [k1], [k2], [k3] at time
    [now]: counters and timestamp, the three targets overwritten, the
    registered consumer (if any) notified. *)
Definition dispatched (now : Z) (k1 k2 k3 : Block) (s : RD03D) : RD03D :=
  let s1 :=
    with_targets (spec_targets k1 k2 k3)
      (with_lastFrameTime now (with_frameCount (u32 (_frameCount s + 1)) s)) in
  match _frameCallback s with
  | Some cb => with_calls (calls s ++ [spec_invocation cb k1 k2 k3]) s1
  | None => s1
  end.

(** ** Invariants *)

(** Both arrays have their declared sizes. *)
Definition sized (s : RD03D) : Prop :=
  length (_frameBuf s) = Z.to_nat RD03D_FRAME_SIZE /\
  length (_targets s) = Z.to_nat RD03D_MAX_TARGETS.

(** The index the next byte is compared or stored at lies inside the
    header while seeking, and inside the payload while collecting. *)
Definition parser_inv (s : RD03D) : Prop :=
  match _parserState s with
  | RD03D_SYNC_HEADER => 0 <= _syncIdx s <= 3
  | RD03D_READ_DATA => 4 <= _frameIdx s <= 29
  end.

(** A driver object fresh from its constructor, with a callback
    registered. *)
Definition fresh (buf0 : list byte) (cb : RD03D_FrameCallback) : RD03D :=
  onFrame (Some cb) (RD03D_new buf0).

(** The initial parser state: seeking a header from its first byte,
    nothing dispatched yet, [cb] registered. *)
Definition initial (cb : RD03D_FrameCallback) (s : RD03D) : Prop :=
  _parserState s = RD03D_SYNC_HEADER /\
  _syncIdx s = 0 /\
  _frameIdx s = 0 /\
  calls s = [] /\
  _frameCallback s = Some cb /\
  sized s.

(** Noise robustness as the specification states it: whatever bytes come
    first, a complete valid frame after them is dispatched, so the
    invocation for that frame is the last one made. *)
Definition noise_robustness : Prop :=
  forall (buf0 : list byte) (cb : RD03D_FrameCallback)
         (noise rx : list Rx) (k1 k2 k3 : Block),
    length buf0 = Z.to_nat RD03D_FRAME_SIZE ->
    map rx_byte rx = frame_bytes k1 k2 k3 ->
    exists s' earlier,
      processBytes (noise ++ rx) (fresh buf0 cb) = Some s' /\
      calls s' = earlier ++ [spec_invocation cb k1 k2 k3].

(** ** Sample inputs *)

(** A received stream with every clock reading equal to [t]. *)
Definition stamp (t : Z) (bs : list byte) : list Rx :=
  map (fun b => mkRx b t t) bs.

(** x = 30 mm, y = 40 mm, speed = -16 cm/s, distance code 360. *)
Definition sample_k1 : Block := mkBlock x1e x80 x28 x80 x10 x00 x68 x01.

(** An empty slot whose speed and distance fields are not zero. *)
Definition sample_k2 : Block := mkBlock x00 x00 x00 x00 x05 x00 x07 x00.

(** x = -16 mm, y = -5 mm, speed = +16 cm/s. *)
Definition sample_k3 : Block := mkBlock x10 x00 xfb x7f x10 x80 x00 x00.

Definition sample_frame : list byte := frame_bytes sample_k1 sample_k2 sample_k3.

(** A constructed driver with callback number 1 registered. *)
Definition sample_s0 : RD03D := fresh (replicate 30 x00) 1%nat.

(** The same with the sample frame in its buffer. *)
Definition sample_full : RD03D := with_frameBuf sample_frame sample_s0.

(** Collecting, 29 bytes of the sample frame taken. *)
Definition sample_last : RD03D :=
  with_frameIdx 29 (with_parserState RD03D_READ_DATA sample_full).

(** ** Polling, streams of frames and quiet runs *)

(** The sketch's [loop()]: one [update] per pass, each pass with its clock
    reading and the bytes the port delivers during it. *)
Fixpoint polls (passes : list (Z * list Rx)) (s : RD03D) : option RD03D :=
  match passes with
  | [] => Some s
  | (now, rx) :: rest => s ← update now rx s; polls rest s
  end.

(** A value of a [uint32_t] variable. *)
Definition uint32 (z : Z) : Prop := 0 <= z < 4294967296.

(** Nothing was counted, decoded or dispatched between [s] and [s']. *)
Definition quiet (s s' : RD03D) : Prop :=
  _frameCount s' = _frameCount s /\
  _errorCount s' = _errorCount s /\
  _lastFrameTime s' = _lastFrameTime s /\
  _targets s' = _targets s /\
  calls s' = calls s.

(** The least number of bytes after which the buffer can be full: what is
    left of the header and of the payload. *)
Definition until_full (s : RD03D) : Z :=
  match _parserState s with
  | RD03D_SYNC_HEADER => RD03D_FRAME_SIZE - _syncIdx s
  | RD03D_READ_DATA => RD03D_FRAME_SIZE - _frameIdx s
  end.

(** The header pattern occurs somewhere in the bytes. *)
Definition contains_header (bs : list byte) : Prop :=
  exists pre post, bs = pre ++ FRAME_HEADER ++ post.

(** The three blocks of a frame, and a stream of frames one after the
    other. *)
Definition Frame : Type := Block * Block * Block.

Definition frames_bytes (fs : list Frame) : list byte :=
  flat_map (fun f : Frame => let '(k1, k2, k3) := f in frame_bytes k1 k2 k3) fs.

Definition frame_invocation (cb : RD03D_FrameCallback) (f : Frame) : Invocation :=
  let '(k1, k2, k3) := f in spec_invocation cb k1 k2 k3.

Definition frame_targets (f : Frame) : list RD03D_Target :=
  let '(k1, k2, k3) := f in spec_targets k1 k2 k3.

(** ** Arithmetic of the raw fields *)

Lemma byte_val_range (b : byte) : 0 <= byte_val b < 256.
Proof.
  unfold byte_val. pose proof (Byte.to_N_bounded b) as H. lia.
Qed.

Lemma lor_shiftl8 (lo hi : Z) :
  0 <= lo < 256 -> 0 <= hi -> Z.lor lo (Z.shiftl hi 8) = lo + 256 * hi.
Proof.
  intros Hlo Hhi.
  assert (Hland : Z.land lo (Z.shiftl hi 8) = 0).
  { apply Z.bits_inj'. intros n Hn.
    rewrite Z.land_spec, Z.bits_0.
    destruct (Z.ltb_spec n 8) as [Hlt | Hge].
    - rewrite (Z.shiftl_spec_low hi 8 n) by lia. apply andb_false_r.
    - replace (Z.testbit lo n) with false; [reflexivity |].
      symmetry. apply Z.bits_above_log2; [lia |].
      destruct (Z.eq_dec lo 0) as [-> | Hnz]; [simpl; lia |].
      apply Z.log2_lt_pow2; [lia |].
      apply Z.lt_le_trans with (2 ^ 8); [simpl; lia |].
      apply Z.pow_le_mono_r; lia. }
  rewrite <- Z.lxor_lor by exact Hland.
  rewrite <- Z.add_nocarry_lxor by exact Hland.
  rewrite Z.shiftl_mul_pow2 by lia. simpl. lia.
Qed.

Lemma raw16_code_spec (lo hi : byte) :
  u16 (Z.lor (byte_val lo) (Z.shiftl (byte_val hi) 8)) = spec_le16 lo hi.
Proof.
  pose proof (byte_val_range lo) as Hl. pose proof (byte_val_range hi) as Hh.
  rewrite lor_shiftl8 by lia.
  unfold u16, spec_le16. apply Z.mod_small. lia.
Qed.

Lemma spec_le16_range (lo hi : byte) : 0 <= spec_le16 lo hi < 65536.
Proof.
  pose proof (byte_val_range lo). pose proof (byte_val_range hi).
  unfold spec_le16. lia.
Qed.

Lemma land_bit15 (raw : Z) :
  Z.land raw 0x8000 = if Z.testbit raw 15 then 0x8000 else 0.
Proof.
  apply Z.bits_inj'. intros n Hn.
  rewrite Z.land_spec.
  change 0x8000 with (2 ^ 15).
  rewrite Z.pow2_bits_eqb by lia.
  destruct (Z.eqb_spec 15 n) as [<- | Hne].
  - rewrite andb_true_r. destruct (Z.testbit raw 15) eqn:E.
    + rewrite Z.pow2_bits_true; [reflexivity | lia].
    + rewrite Z.bits_0. reflexivity.
  - rewrite andb_false_r. destruct (Z.testbit raw 15).
    + rewrite Z.pow2_bits_false; [reflexivity | exact Hne].
    + rewrite Z.bits_0. reflexivity.
Qed.

Lemma magnitude_range (raw : Z) : 0 <= Z.land raw 0x7FFF < 32768.
Proof.
  change 0x7FFF with (Z.ones 15). rewrite Z.land_ones by lia.
  change (2 ^ 15) with 32768. apply Z.mod_pos_bound. lia.
Qed.

Lemma i16_small (z : Z) : -32768 <= z < 32768 -> i16 z = z.
Proof.
  intros H. unfold i16. rewrite Z.mod_small by lia. lia.
Qed.

(** The code's treatment of a sign-and-magnitude field is the
    specification's. *)
Lemma sign_magnitude_code_spec (raw : Z) :
  (let v := i16 (Z.land raw 0x7FFF) in
   if Z.land raw 0x8000 =? 0 then i16 (- v) else v) = spec_sign_magnitude raw.
Proof.
  pose proof (magnitude_range raw) as Hm.
  cbv zeta. unfold spec_sign_magnitude.
  rewrite land_bit15. rewrite (i16_small (Z.land raw 0x7FFF)) by lia.
  destruct (Z.testbit raw 15); simpl (_ =? _).
  - reflexivity.
  - apply i16_small. lia.
Qed.

Lemma offset_code_spec (raw : Z) :
  0 <= raw < 65536 -> i16 (raw - 0x8000) = spec_offset raw.
Proof.
  intros H. unfold spec_offset. apply i16_small. lia.
Qed.

(** ** Array accesses *)

Lemma arr_get_nat {A : Type} (a : list A) (i : nat) :
  arr_get a (Z.of_nat i) = a !! i.
Proof.
  unfold arr_get. rewrite Nat2Z.id.
  destruct (Z.leb_spec 0 (Z.of_nat i)); [reflexivity | lia].
Qed.

Lemma arr_set_nat {A : Type} (a : list A) (i : nat) (v : A) :
  (i < length a)%nat -> arr_set a (Z.of_nat i) v = Some (<[i := v]> a).
Proof.
  intros Hi. unfold arr_set. rewrite Nat2Z.id.
  destruct (Z.leb_spec 0 (Z.of_nat i)); [| lia].
  destruct (Z.ltb_spec (Z.of_nat i) (Z.of_nat (length a))); [reflexivity | lia].
Qed.

Lemma arr_get_in {A : Type} (a : list A) (i : Z) :
  0 <= i -> arr_get a i = a !! Z.to_nat i.
Proof.
  intros Hi. unfold arr_get.
  destruct (Z.leb_spec 0 i); [reflexivity | lia].
Qed.

Lemma arr_set_in {A : Type} (a : list A) (i : Z) (v : A) :
  0 <= i < Z.of_nat (length a) -> arr_set a i v = Some (<[Z.to_nat i := v]> a).
Proof.
  intros Hi. rewrite <- (Z2Nat.id i) at 1 by lia. apply arr_set_nat. lia.
Qed.

Lemma block_at_get (buf : list byte) (data : Z) (k : Block) (i : nat) (b : byte) :
  block_at buf data k ->
  block_bytes k !! i = Some b ->
  arr_get buf (data + Z.of_nat i) = Some b.
Proof.
  intros [Hdata Hk] Hb.
  rewrite <- Hk in Hb.
  apply lookup_take_Some in Hb as [Hb _].
  rewrite lookup_drop in Hb.
  replace (data + Z.of_nat i) with (Z.of_nat (Z.to_nat data + i)) by lia.
  rewrite arr_get_nat. exact Hb.
Qed.

Lemma frame_block_at (buf : list byte) (n : nat) :
  length buf = Z.to_nat RD03D_FRAME_SIZE ->
  (n < 3)%nat ->
  block_at buf (4 + 8 * Z.of_nat n) (frame_block buf n).
Proof.
  intros Hlen Hn. split; [lia |].
  replace (Z.to_nat (4 + 8 * Z.of_nat n)) with (4 + 8 * n)%nat by lia.
  apply list_eq. intros i.
  destruct (Nat.lt_ge_cases i 8) as [Hi | Hi].
  - rewrite lookup_take_lt by exact Hi. rewrite lookup_drop.
    assert (Hin : (4 + 8 * n + i < length buf)%nat).
    { rewrite Hlen. change (Z.to_nat RD03D_FRAME_SIZE) with 30%nat. lia. }
    destruct (nth_lookup_or_length buf (4 + 8 * n + i) x00) as [Hx | Hx]; [| lia].
    rewrite Hx.
    do 8 (destruct i as [| i]; [reflexivity |]). lia.
  - rewrite lookup_take_ge by exact Hi.
    symmetry. apply lookup_ge_None. simpl. exact Hi.
Qed.


Ltac read_block Hk i :=
  let H := fresh "Hget" in
  pose proof (block_at_get _ _ _ i _ Hk eq_refl) as H;
  (let z := eval vm_compute in (Z.of_nat i) in change (Z.of_nat i) with z in H);
  rewrite ?Z.add_0_r in H;
  rewrite H; clear H.

Lemma parseTarget_spec (index : nat) (data : Z) (s : RD03D) (k : Block) :
  (index < 3)%nat ->
  (index < length (_targets s))%nat ->
  block_at (_frameBuf s) data k ->
  parseTarget (Z.of_nat index) data s
  = Some (with_targets (<[index := spec_target k]> (_targets s)) s).
Proof.
  intros Hidx Hlen Hk.
  unfold parseTarget.
  destruct (Z.leb_spec RD03D_MAX_TARGETS (Z.of_nat index)) as [Hge | _];
    [unfold RD03D_MAX_TARGETS in Hge; lia |].
  read_block Hk 0%nat. read_block Hk 1%nat. read_block Hk 2%nat. read_block Hk 3%nat.
  read_block Hk 4%nat. read_block Hk 5%nat. read_block Hk 6%nat. read_block Hk 7%nat.
  cbn [mbind option_bind].
  rewrite !raw16_code_spec.
  pose proof sign_magnitude_code_spec as Hsm. cbv zeta in Hsm.
  rewrite !Hsm.
  rewrite offset_code_spec by apply spec_le16_range.
  rewrite !arr_set_nat by exact Hlen.
  cbn [mbind option_bind].
  unfold spec_target, spec_valid, rawX, rawY, rawSpeed, rawDistanceCode, clear.
  destruct (negb (spec_le16 (blk0 k) (blk1 k) =? 0)
            || negb (spec_le16 (blk2 k) (blk3 k) =? 0)); reflexivity.
Qed.

Lemma getTargetCount_spec (s : RD03D) :
  length (_targets s) = Z.to_nat RD03D_MAX_TARGETS ->
  getTargetCount s = Some (spec_count (_targets s)).
Proof.
  intros Hlen. unfold getTargetCount.
  destruct (_targets s) as [| t1 [| t2 [| t3 [| t4 ts]]]]; try discriminate Hlen.
  unfold spec_count.
  destruct t1 as [? ? ? ? ? ? [|]], t2 as [? ? ? ? ? ? [|]], t3 as [? ? ? ? ? ? [|]];
    reflexivity.
Qed.

Lemma spec_count_range (k1 k2 k3 : Block) :
  0 <= spec_count (spec_targets k1 k2 k3) <= 3.
Proof.
  unfold spec_count, spec_targets. simpl List.filter.
  destruct (t_valid (spec_target k1)), (t_valid (spec_target k2)),
    (t_valid (spec_target k3)); simpl; lia.
Qed.

Lemma parseTarget_slot (index data : Z) (s : RD03D) (k : Block) :
  0 <= index < 3 ->
  sized s ->
  block_at (_frameBuf s) data k ->
  parseTarget index data s
  = Some (with_targets (<[Z.to_nat index := spec_target k]> (_targets s)) s).
Proof.
  intros Hidx [_ Hlen] Hk.
  rewrite <- (Z2Nat.id index) at 1 by lia.
  apply parseTarget_spec; [lia | | exact Hk].
  rewrite Hlen. change (Z.to_nat RD03D_MAX_TARGETS) with 3%nat. lia.
Qed.

(** ** Decoding and dispatching a frame *)

Lemma processFrame_spec (now : Z) (s : RD03D) (k1 k2 k3 : Block) :
  sized s ->
  block_at (_frameBuf s) 4 k1 ->
  block_at (_frameBuf s) 12 k2 ->
  block_at (_frameBuf s) 20 k3 ->
  processFrame now s = Some (dispatched now k1 k2 k3 s).
Proof.
  intros [Hbuf Hts] H1 H2 H3.
  destruct s as [ser ts cb buf fi si st lb lf tm fc ec cs].
  simpl in Hbuf, Hts, H1, H2, H3.
  destruct ts as [| t1 [| t2 [| t3 [| t4 ts]]]]; try discriminate Hts.
  unfold processFrame. cbv zeta.
  rewrite (parseTarget_slot 0 4 _ k1); [| lia | split; assumption | exact H1].
  cbn [mbind option_bind].
  rewrite (parseTarget_slot 1 12 _ k2); [| lia | split; [exact Hbuf | reflexivity] | exact H2].
  cbn [mbind option_bind].
  rewrite (parseTarget_slot 2 20 _ k3); [| lia | split; [exact Hbuf | reflexivity] | exact H3].
  cbn [mbind option_bind].
  rewrite getTargetCount_spec by reflexivity.
  destruct cb as [cb |]; reflexivity.
Qed.

(** Reading a field of an updated object. *)
Ltac proj :=
  cbn [with_serial with_targets with_frameCallback with_frameBuf with_frameIdx
       with_syncIdx with_parserState with_lastByteTime with_lastFrameTime
       with_timeoutMs with_frameCount with_errorCount with_calls
       _serial _targets _frameCallback _frameBuf _frameIdx _syncIdx _parserState
       _lastByteTime _lastFrameTime _timeoutMs _frameCount _errorCount calls].

(** The same, normalising an object given by its fields. *)
Ltac fields :=
  cbv [with_serial with_targets with_frameCallback with_frameBuf with_frameIdx
       with_syncIdx with_parserState with_lastByteTime with_lastFrameTime
       with_timeoutMs with_frameCount with_errorCount with_calls
       _serial _targets _frameCallback _frameBuf _frameIdx _syncIdx _parserState
       _lastByteTime _lastFrameTime _timeoutMs _frameCount _errorCount calls
       mbind option_bind].

(** ** One byte in the SyncSeeking state *)

Lemma byte_eqb_refl (b : byte) : Byte.eqb b b = true.
Proof. apply Byte.byte_dec_lb. reflexivity. Qed.

Lemma byte_eqb_neq (a b : byte) : a <> b -> Byte.eqb a b = false.
Proof.
  intros Hne. destruct (Byte.eqb a b) eqn:E; [| reflexivity].
  apply Byte.byte_dec_bl in E. contradiction.
Qed.

Lemma header_lookup (i : Z) :
  0 <= i <= 3 -> exists h, arr_get FRAME_HEADER i = Some h.
Proof.
  intros Hi.
  assert (Hc : i = 0 \/ i = 1 \/ i = 2 \/ i = 3) by lia.
  destruct Hc as [-> | [-> | [-> | ->]]]; eexists; reflexivity.
Qed.

Lemma processByte_sync (now now_frame : Z) (b h : byte) (s : RD03D) :
  _parserState s = RD03D_SYNC_HEADER ->
  0 <= _syncIdx s <= 3 ->
  length (_frameBuf s) = Z.to_nat RD03D_FRAME_SIZE ->
  arr_get FRAME_HEADER (_syncIdx s) = Some h ->
  processByte now now_frame b s =
  Some (if Byte.eqb b h then
          let s1 := with_syncIdx (_syncIdx s + 1)
                      (with_frameBuf (<[Z.to_nat (_syncIdx s) := b]> (_frameBuf s))
                         (with_lastByteTime now s)) in
          if _syncIdx s =? 3
          then with_frameIdx 4 (with_parserState RD03D_READ_DATA s1)
          else s1
        else if Byte.eqb b xaa then
          with_frameBuf (<[0%nat := b]> (_frameBuf s))
            (with_syncIdx 1 (with_lastByteTime now s))
        else with_syncIdx 0 (with_lastByteTime now s)).
Proof.
  intros Hst Hidx Hlen Hh.
  change (Z.to_nat RD03D_FRAME_SIZE) with 30%nat in Hlen.
  destruct s as [ser ts cb buf fi si st lb lf tm fc ec cs].
  simpl in Hst, Hidx, Hlen, Hh. subst st.
  unfold processByte. cbv zeta. fields.
  rewrite Hh. cbn [mbind option_bind].
  destruct (Byte.eqb b h).
  - rewrite arr_set_in by lia.
    cbn [mbind option_bind]. cbv zeta.
    fields.
    unfold u8. rewrite Z.mod_small by lia.
    unfold RD03D_FRAME_HEADER_SIZE.
    destruct (Z.eqb_spec si 3) as [-> | Hne].
    + reflexivity.
    + destruct (Z.leb_spec 4 (si + 1)); [lia | reflexivity].
  - change (arr_get FRAME_HEADER 0) with (Some xaa). cbn [mbind option_bind].
    destruct (Byte.eqb b xaa); [| reflexivity].
    fields.
    rewrite arr_set_in by lia. reflexivity.
Qed.

(** ** One byte in the Collecting state *)

Lemma processByte_read_store (now now_frame : Z) (b : byte) (s : RD03D) :
  _parserState s = RD03D_READ_DATA ->
  0 <= _frameIdx s < 29 ->
  length (_frameBuf s) = Z.to_nat RD03D_FRAME_SIZE ->
  processByte now now_frame b s =
  Some (with_frameIdx (_frameIdx s + 1)
          (with_frameBuf (<[Z.to_nat (_frameIdx s) := b]> (_frameBuf s))
             (with_lastByteTime now s))).
Proof.
  intros Hst Hidx Hlen.
  change (Z.to_nat RD03D_FRAME_SIZE) with 30%nat in Hlen.
  destruct s as [ser ts cb buf fi si st lb lf tm fc ec cs].
  simpl in Hst, Hidx, Hlen. subst st.
  unfold processByte. cbv zeta. fields.
  rewrite arr_set_in by lia.
  cbn [mbind option_bind]. cbv zeta.
  fields.
  unfold u8. rewrite Z.mod_small by lia.
  unfold RD03D_FRAME_SIZE.
  destruct (Z.leb_spec 30 (fi + 1)); [lia | reflexivity].
Qed.

(** The state in which the tail is checked: the 30th byte stored. *)
Lemma processByte_read_last (now now_frame : Z) (b b28 : byte) (s : RD03D) :
  _parserState s = RD03D_READ_DATA ->
  _frameIdx s = 29 ->
  length (_frameBuf s) = Z.to_nat RD03D_FRAME_SIZE ->
  _frameBuf s !! 28%nat = Some b28 ->
  processByte now now_frame b s =
  (let s1 := with_frameIdx 30
               (with_frameBuf (<[29%nat := b]> (_frameBuf s))
                  (with_lastByteTime now s)) in
   if Byte.eqb b28 x55 && Byte.eqb b xcc
   then resetParser <$> processFrame now_frame s1
   else Some (resetParser (with_errorCount (u32 (_errorCount s + 1)) s1))).
Proof.
  intros Hst Hidx Hlen H28.
  change (Z.to_nat RD03D_FRAME_SIZE) with 30%nat in Hlen.
  destruct s as [ser ts cb buf fi si st lb lf tm fc ec cs].
  simpl in Hst, Hidx, Hlen, H28. subst st fi.
  unfold processByte. cbv zeta. fields.
  rewrite arr_set_in by lia.
  cbn [mbind option_bind]. cbv zeta.
  fields.
  change (RD03D_FRAME_SIZE <=? u8 (29 + 1)) with true. cbv iota.
  rewrite !arr_get_in by lia.
  change (Z.to_nat 28) with 28%nat. change (Z.to_nat 29) with 29%nat.
  rewrite (list_lookup_insert_ne buf 29 28 b) by lia. rewrite H28.
  rewrite (list_lookup_insert_eq buf 29 b) by lia.
  cbn [mbind option_bind].
  destruct (Byte.eqb b28 x55); [| reflexivity].
  destruct (Byte.eqb b xcc); [| reflexivity].
  cbn [andb].
  destruct (processFrame now_frame _); reflexivity.
Qed.

(** ** Runs of bytes *)

Lemma processBytes_app (rx1 rx2 : list Rx) (s : RD03D) :
  processBytes (rx1 ++ rx2) s = processBytes rx1 s ≫= processBytes rx2.
Proof.
  revert s. induction rx1 as [| r rx1 IH]; intros s; [reflexivity |].
  simpl. destruct (processByte _ _ _ s) as [s1 |]; [apply IH | reflexivity].
Qed.

(** A header byte [xaa] always leaves the parser one byte into a header. *)
Lemma sync_first (now now_frame : Z) (s : RD03D) :
  _parserState s = RD03D_SYNC_HEADER ->
  0 <= _syncIdx s <= 3 ->
  length (_frameBuf s) = Z.to_nat RD03D_FRAME_SIZE ->
  processByte now now_frame xaa s =
  Some (with_frameBuf (<[0%nat := xaa]> (_frameBuf s))
          (with_syncIdx 1 (with_lastByteTime now s))).
Proof.
  intros Hst Hidx Hlen.
  assert (Hc : _syncIdx s = 0 \/ _syncIdx s = 1 \/ _syncIdx s = 2 \/ _syncIdx s = 3) by lia.
  destruct s as [ser ts cb buf fi si st lb lf tm fc ec cs].
  simpl in Hst, Hidx, Hlen, Hc.
  destruct Hc as [-> | [-> | [-> | ->]]];
    (erewrite processByte_sync; [| exact Hst | exact Hidx | exact Hlen | reflexivity]);
    reflexivity.
Qed.

(** The next header byte, when the parser is [i] bytes into a header. *)
Lemma sync_next (now now_frame : Z) (i : nat) (h : byte) (s : RD03D) :
  _parserState s = RD03D_SYNC_HEADER ->
  _syncIdx s = Z.of_nat i ->
  FRAME_HEADER !! i = Some h ->
  length (_frameBuf s) = Z.to_nat RD03D_FRAME_SIZE ->
  processByte now now_frame h s =
  Some (let s1 := with_syncIdx (Z.of_nat (S i))
                    (with_frameBuf (<[i := h]> (_frameBuf s))
                       (with_lastByteTime now s)) in
        if Nat.eqb i 3
        then with_frameIdx 4 (with_parserState RD03D_READ_DATA s1)
        else s1).
Proof.
  intros Hst Hidx Hh Hlen.
  assert (Hi : (i < 4)%nat).
  { apply lookup_lt_Some in Hh. exact Hh. }
  erewrite processByte_sync;
    [| exact Hst | lia | exact Hlen | rewrite Hidx, arr_get_nat; exact Hh].
  rewrite byte_eqb_refl. cbv zeta. rewrite Hidx, Nat2Z.id.
  replace (Z.of_nat i + 1) with (Z.of_nat (S i)) by lia.
  destruct (Nat.eqb_spec i 3) as [-> | Hne].
  - reflexivity.
  - destruct (Z.eqb_spec (Z.of_nat i) 3); [lia | reflexivity].
Qed.

Lemma header_sync (rx : list Rx) (s : RD03D) :
  _parserState s = RD03D_SYNC_HEADER ->
  0 <= _syncIdx s <= 3 ->
  length (_frameBuf s) = Z.to_nat RD03D_FRAME_SIZE ->
  map rx_byte rx = FRAME_HEADER ->
  exists t,
    processBytes rx s =
    Some (with_frameIdx 4
            (with_parserState RD03D_READ_DATA
               (with_syncIdx 4
                  (with_frameBuf (list_inserts 0 FRAME_HEADER (_frameBuf s))
                     (with_lastByteTime t s))))).
Proof.
  intros Hst Hidx Hlen Hrx.
  destruct rx as [| [b1 t1 f1] [| [b2 t2 f2] [| [b3 t3 f3] [| [b4 t4 f4] [| r rx]]]]];
    try discriminate Hrx.
  injection Hrx as -> -> -> ->.
  exists t4.
  destruct s as [ser ts cb buf fi si st lb lf tm fc ec cs].
  simpl in Hst, Hidx, Hlen. subst st.
  unfold processBytes. cbn [rx_byte rx_millis rx_millis_frame].
  rewrite sync_first; [| reflexivity | exact Hidx | exact Hlen]. fields.
  erewrite (sync_next t2 f2 1 xff);
    [| reflexivity | reflexivity | reflexivity | fields; rewrite ?length_insert; exact Hlen].
  cbn [Nat.eqb]. cbv zeta. fields.
  erewrite (sync_next t3 f3 2 x03);
    [| reflexivity | reflexivity | reflexivity | fields; rewrite ?length_insert; exact Hlen].
  cbn [Nat.eqb]. cbv zeta. fields.
  erewrite (sync_next t4 f4 3 x00);
    [| reflexivity | reflexivity | reflexivity | fields; rewrite ?length_insert; exact Hlen].
  cbn [Nat.eqb]. cbv zeta. fields.
  f_equal.
  change (Z.to_nat RD03D_FRAME_SIZE) with 30%nat in Hlen.
  destruct buf as [| a0 [| a1 [| a2 [| a3 buf]]]]; try discriminate Hlen.
  reflexivity.
Qed.

(** Payload bytes short of the 30th are stored one after the other. *)
Lemma collect (rx : list Rx) :
  forall s : RD03D,
    _parserState s = RD03D_READ_DATA ->
    0 <= _frameIdx s ->
    _frameIdx s + Z.of_nat (length rx) <= 29 ->
    length (_frameBuf s) = Z.to_nat RD03D_FRAME_SIZE ->
    exists t,
      processBytes rx s =
      Some (with_frameIdx (_frameIdx s + Z.of_nat (length rx))
              (with_frameBuf
                 (list_inserts (Z.to_nat (_frameIdx s)) (map rx_byte rx) (_frameBuf s))
                 (with_lastByteTime t s))).
Proof.
  induction rx as [| r rx IH]; intros s Hst Hlo Hhi Hlen.
  - exists (_lastByteTime s). destruct s. simpl. rewrite Z.add_0_r. reflexivity.
  - simpl length in Hhi.
    cbn [processBytes].
    rewrite processByte_read_store; [| exact Hst | lia | exact Hlen].
    cbn [mbind option_bind].
    destruct s as [ser ts cb buf fi si st lb lf tm fc ec cs].
    simpl in Hst, Hlo, Hhi, Hlen. subst st.
    fields.
    edestruct (IH (mkRD03D ser ts cb (<[Z.to_nat fi := rx_byte r]> buf) (fi + 1) si
                     RD03D_READ_DATA (rx_millis r) lf tm fc ec cs)) as [t Ht].
    + reflexivity.
    + simpl. lia.
    + simpl. lia.
    + simpl. rewrite length_insert. exact Hlen.
    + exists t. rewrite Ht. fields. f_equal.
      replace (Z.to_nat (fi + 1)) with (S (Z.to_nat fi)) by lia.
      simpl length. simpl map.
      replace (fi + 1 + Z.of_nat (length rx)) with (fi + Z.of_nat (S (length rx))) by lia.
      f_equal.
      cbn [list_inserts].
      rewrite list_insert_inserts_lt by lia. reflexivity.
Qed.

(** A complete frame, taken from a header-seeking state. *)
Lemma frame_from_sync (rx : list Rx) (k1 k2 k3 : Block) (s : RD03D) :
  _parserState s = RD03D_SYNC_HEADER ->
  0 <= _syncIdx s <= 3 ->
  sized s ->
  map rx_byte rx = frame_bytes k1 k2 k3 ->
  exists t tf,
    processBytes rx s =
    Some (resetParser
            (dispatched tf k1 k2 k3
               (with_frameBuf (frame_bytes k1 k2 k3) (with_lastByteTime t s)))).
Proof.
  intros Hst Hidx [Hlen Hts] Hrx.
  change (frame_bytes k1 k2 k3)
    with (FRAME_HEADER
            ++ (block_bytes k1 ++ block_bytes k2 ++ block_bytes k3 ++ [x55])
            ++ [xcc]) in Hrx.
  apply map_eq_app in Hrx as (rxH & rx' & -> & HrxH & Hrx').
  apply map_eq_app in Hrx' as (rxP & rxT & -> & HrxP & HrxT).
  destruct rxT as [| [bT tT fT] [| r rxT]]; try discriminate HrxT.
  injection HrxT as ->.
  destruct (header_sync rxH s Hst Hidx Hlen HrxH) as [tH EH].
  rewrite processBytes_app, EH. cbn [mbind option_bind].
  assert (HlenP : length rxP = 25%nat).
  { rewrite <- (length_map rx_byte), HrxP. reflexivity. }
  destruct s as [ser ts cb buf fi si st lb lf tm fc ec cs].
  simpl in Hst, Hidx, Hlen, Hts. subst st.
  fields.
  rewrite processBytes_app.
  edestruct (collect rxP) as [tP EP]; [| | | | rewrite EP].
  - reflexivity.
  - simpl. lia.
  - simpl. rewrite HlenP. lia.
  - fields. rewrite length_inserts. exact Hlen.
  - cbn [mbind option_bind]. fields. rewrite HlenP, HrxP.
    change (Z.to_nat RD03D_FRAME_SIZE) with 30%nat in Hlen.
    do 30 (destruct buf as [| ? buf]; [discriminate Hlen |]).
    destruct buf; [| discriminate Hlen].
    cbn [processBytes rx_byte rx_millis rx_millis_frame].
    erewrite processByte_read_last; [| reflexivity | reflexivity | reflexivity | reflexivity].
    cbv zeta. fields.
    change (Byte.eqb x55 x55 && Byte.eqb xcc xcc) with true. cbv iota.
    erewrite (processFrame_spec fT _ k1 k2 k3);
      [| split; [reflexivity | exact Hts] | split; [lia | reflexivity]
       | split; [lia | reflexivity] | split; [lia | reflexivity]].
    exists tT, fT. destruct cb; reflexivity.
Qed.

(** ** Decoding one target *)

(** The slot written by [parseTarget] holds the expected decode. *)
Lemma parseTarget_decodes (index data : Z) (s : RD03D) (k : Block) :
  0 <= index < 3 ->
  sized s ->
  block_at (_frameBuf s) data k ->
  exists s',
    parseTarget index data s = Some s' /\
    _targets s' !! Z.to_nat index = Some (spec_target k).
Proof.
  intros Hidx Hsz Hk.
  rewrite (parseTarget_slot index data s k Hidx Hsz Hk).
  eexists. split; [reflexivity |].
  proj. apply list_lookup_insert_eq.
  destruct Hsz as [_ ->]. change (Z.to_nat RD03D_MAX_TARGETS) with 3%nat. lia.
Qed.

Lemma spec_valid_iff (k : Block) :
  spec_valid k = true <-> rawX k <> 0 \/ rawY k <> 0.
Proof.
  unfold spec_valid.
  destruct (Z.eqb_spec (rawX k) 0), (Z.eqb_spec (rawY k) 0); simpl; split;
    intros H; try reflexivity; try discriminate; try tauto; lia.
Qed.

(** C3.  In a valid target, X and speed are decoded by sign and magnitude
    with the polarity in bit 15: the low 15 bits when bit 15 is set, their
    negation when it is clear.  So a raw X of 0x8010 gives +16 and a raw X
    of 0x0010 gives -16. *)
Theorem sign_magnitude_decode (index data : Z) (s : RD03D) (k : Block) :
  0 <= index < 3 ->
  sized s ->
  block_at (_frameBuf s) data k ->
  rawX k <> 0 \/ rawY k <> 0 ->
  exists s' t,
    parseTarget index data s = Some s' /\
    _targets s' !! Z.to_nat index = Some t /\
    t_x t = (if Z.testbit (rawX k) 15
             then Z.land (rawX k) 0x7FFF else - Z.land (rawX k) 0x7FFF) /\
    t_speed t = (if Z.testbit (rawSpeed k) 15
                 then Z.land (rawSpeed k) 0x7FFF else - Z.land (rawSpeed k) 0x7FFF) /\
    (rawX k = 0x8010 -> t_x t = 16) /\
    (rawX k = 0x0010 -> t_x t = -16).
Proof.
  intros Hidx Hsz Hk Hv.
  destruct (parseTarget_decodes index data s k Hidx Hsz Hk) as (s' & Hs' & Ht).
  exists s', (spec_target k). split; [exact Hs' |]. split; [exact Ht |].
  apply spec_valid_iff in Hv.
  unfold spec_target. rewrite Hv. cbn [t_x t_speed].
  unfold spec_sign_magnitude. cbv zeta.
  repeat split; intros ->; reflexivity.
Qed.

(** C4.  In a valid target, Y is the raw value minus 0x8000, a signed
    16-bit quantity, with no magnitude extraction: 0x8000 gives 0, 0x8005
    gives +5 and 0x7FFB gives -5. *)
Theorem offset_decode (index data : Z) (s : RD03D) (k : Block) :
  0 <= index < 3 ->
  sized s ->
  block_at (_frameBuf s) data k ->
  rawX k <> 0 \/ rawY k <> 0 ->
  exists s' t,
    parseTarget index data s = Some s' /\
    _targets s' !! Z.to_nat index = Some t /\
    t_y t = rawY k - 0x8000 /\
    -32768 <= t_y t <= 32767 /\
    (rawY k = 0x8000 -> t_y t = 0) /\
    (rawY k = 0x8005 -> t_y t = 5) /\
    (rawY k = 0x7FFB -> t_y t = -5).
Proof.
  intros Hidx Hsz Hk Hv.
  destruct (parseTarget_decodes index data s k Hidx Hsz Hk) as (s' & Hs' & Ht).
  exists s', (spec_target k). split; [exact Hs' |]. split; [exact Ht |].
  apply spec_valid_iff in Hv.
  pose proof (spec_le16_range (blk2 k) (blk3 k)) as Hr. fold (rawY k) in Hr.
  unfold spec_target. rewrite Hv. cbn [t_y]. unfold spec_offset.
  repeat split; try lia; intros ->; reflexivity.
Qed.

(** C8.  A decoded target is valid exactly when its raw X or its raw Y is
    not zero; when both are zero every field of the target is zero or
    false, whatever the raw speed and distance fields hold. *)
Theorem validity_and_clearing (index data : Z) (s : RD03D) (k : Block) :
  0 <= index < 3 ->
  sized s ->
  block_at (_frameBuf s) data k ->
  exists s' t,
    parseTarget index data s = Some s' /\
    _targets s' !! Z.to_nat index = Some t /\
    (t_valid t = true <-> rawX k <> 0 \/ rawY k <> 0) /\
    (rawX k = 0 -> rawY k = 0 ->
     t_x t = 0 /\ t_y t = 0 /\ t_speed t = 0 /\ t_distanceRaw t = 0 /\
     t_distance t = S754_zero false /\ t_angle t = S754_zero false /\
     t_valid t = false).
Proof.
  intros Hidx Hsz Hk.
  destruct (parseTarget_decodes index data s k Hidx Hsz Hk) as (s' & Hs' & Ht).
  exists s', (spec_target k). split; [exact Hs' |]. split; [exact Ht |].
  split.
  - rewrite <- spec_valid_iff. unfold spec_target.
    destruct (spec_valid k); simpl; tauto.
  - intros Hx Hy.
    assert (Hv : spec_valid k = false).
    { unfold spec_valid. rewrite Hx, Hy. reflexivity. }
    unfold spec_target. rewrite Hv. simpl. tauto.
Qed.

(** ** The parser never leaves its arrays *)

Lemma dispatch_full_buffer (now : Z) (s : RD03D) :
  sized s ->
  processFrame now s =
  Some (dispatched now (frame_block (_frameBuf s) 0) (frame_block (_frameBuf s) 1)
          (frame_block (_frameBuf s) 2) s).
Proof.
  intros Hsz. pose proof Hsz as [Hlen _].
  apply processFrame_spec; [exact Hsz | | |].
  - apply (frame_block_at _ 0 Hlen). lia.
  - apply (frame_block_at _ 1 Hlen). lia.
  - apply (frame_block_at _ 2 Hlen). lia.
Qed.

Lemma processByte_preserves (now now_frame : Z) (b : byte) (s : RD03D) :
  sized s ->
  parser_inv s ->
  exists s',
    processByte now now_frame b s = Some s' /\
    sized s' /\ parser_inv s' /\
    _frameCallback s' = _frameCallback s /\
    _lastByteTime s' = now.
Proof.
  intros [Hlen Hts] Hinv.
  destruct s as [ser ts cb buf fi si st lb lf tm fc ec cs].
  unfold parser_inv in Hinv. simpl in Hlen, Hts, Hinv.
  destruct st.
  - destruct (header_lookup si Hinv) as [h Hh].
    erewrite processByte_sync; [| reflexivity | exact Hinv | exact Hlen | exact Hh].
    eexists. split; [reflexivity |].
    unfold sized, parser_inv. proj.
    destruct (Byte.eqb b h); [destruct (Z.eqb_spec si 3) | destruct (Byte.eqb b xaa)];
      cbv zeta; fields; rewrite ?length_insert; repeat split; auto; lia.
  - destruct (Z.eq_dec fi 29) as [-> | Hne].
    + destruct (lookup_lt_is_Some_2 buf 28) as [b28 H28].
      { rewrite Hlen. change (Z.to_nat RD03D_FRAME_SIZE) with 30%nat. lia. }
      erewrite processByte_read_last; [| reflexivity | reflexivity | exact Hlen | exact H28].
      cbv zeta.
      destruct (Byte.eqb b28 x55 && Byte.eqb b xcc).
      * rewrite dispatch_full_buffer.
        2:{ split; fields; [rewrite length_insert; exact Hlen | exact Hts]. }
        eexists. split; [reflexivity |].
        unfold sized, parser_inv, dispatched, resetParser. fields.
        destruct cb; fields; rewrite ?length_insert; repeat split; auto; lia.
      * eexists. split; [reflexivity |].
        unfold sized, parser_inv, resetParser. fields.
        rewrite ?length_insert; repeat split; auto; lia.
    + rewrite processByte_read_store; [| reflexivity | simpl; lia | exact Hlen].
      eexists. split; [reflexivity |].
      unfold sized, parser_inv. fields.
      rewrite ?length_insert; repeat split; auto; lia.
Qed.

Lemma processBytes_preserves (rx : list Rx) :
  forall s : RD03D,
    sized s ->
    parser_inv s ->
    exists s',
      processBytes rx s = Some s' /\
      sized s' /\ parser_inv s' /\
      _frameCallback s' = _frameCallback s.
Proof.
  induction rx as [| r rx IH]; intros s Hsz Hinv.
  - exists s. auto.
  - destruct (processByte_preserves (rx_millis r) (rx_millis_frame r) (rx_byte r) s Hsz Hinv)
      as (s1 & E1 & Hsz1 & Hinv1 & Hcb1 & _).
    destruct (IH s1 Hsz1 Hinv1) as (s' & E' & Hsz' & Hinv' & Hcb').
    exists s'. cbn [processBytes]. rewrite E1. cbn [mbind option_bind].
    repeat split; try assumption; try apply Hsz'. congruence.
Qed.

(** The byte time kept by the parser is that of the last byte taken. *)
Lemma processBytes_lastByteTime (rx : list Rx) :
  forall (s s' : RD03D) (r : Rx),
    sized s ->
    parser_inv s ->
    processBytes rx s = Some s' ->
    last rx = Some r ->
    _lastByteTime s' = rx_millis r.
Proof.
  induction rx as [| r0 rx IH]; intros s s' r Hsz Hinv Hrun Hlast; [discriminate Hlast |].
  destruct (processByte_preserves (rx_millis r0) (rx_millis_frame r0) (rx_byte r0) s Hsz Hinv)
    as (s1 & E1 & Hsz1 & Hinv1 & _ & Ht1).
  cbn [processBytes] in Hrun. rewrite E1 in Hrun. cbn [mbind option_bind] in Hrun.
  destruct rx as [| r1 rx].
  - simpl in Hrun, Hlast. congruence.
  - apply (IH s1 s' r Hsz1 Hinv1 Hrun). exact Hlast.
Qed.

(** C10.  Every access to the frame buffer is in bounds.  The invariant -
    seeking: sync index at most 3; collecting: frame index from 4 to 29 when
    the byte is stored - holds for a constructed object, is established by
    every parser reset and is kept by every [processByte] step, which
    therefore never indexes outside an array, whatever bytes arrive. *)
Theorem buffer_indexing_in_bounds :
  (forall buf0, parser_inv (RD03D_new buf0)) /\
  (forall s, parser_inv (resetParser s)) /\
  (forall now now_frame b s,
      sized s -> parser_inv s ->
      exists s',
        processByte now now_frame b s = Some s' /\ sized s' /\ parser_inv s') /\
  (forall buf0 rx,
      length buf0 = Z.to_nat RD03D_FRAME_SIZE ->
      exists s',
        processBytes rx (RD03D_new buf0) = Some s' /\ sized s' /\ parser_inv s').
Proof.
  split; [| split; [| split]].
  - intros buf0. unfold parser_inv. simpl. lia.
  - intros s. unfold parser_inv. simpl. lia.
  - intros now now_frame b s Hsz Hinv.
    destruct (processByte_preserves now now_frame b s Hsz Hinv) as (s' & E & H1 & H2 & _).
    exists s'. auto.
  - intros buf0 rx Hlen.
    destruct (processBytes_preserves rx (RD03D_new buf0)) as (s' & E & H1 & H2 & _).
    + split; [exact Hlen | reflexivity].
    + unfold parser_inv. simpl. lia.
    + exists s'. auto.
Qed.

(** ** The two parser states *)

(** C5.  One byte in the SyncSeeking state.  A byte equal to the header
    byte expected at the match index is stored at that position and the
    index advances, the parser turning to Collecting at buffer position 4
    once the index reaches 4.  Any other byte restarts the match at index
    1, stored at position 0, when it is the header's first byte, and
    otherwise resets the index to 0 and is dropped.  No counter moves and
    nothing is dispatched. *)
Theorem sync_seeking_byte (now now_frame : Z) (b : byte) (s : RD03D) :
  _parserState s = RD03D_SYNC_HEADER ->
  0 <= _syncIdx s <= 3 ->
  length (_frameBuf s) = Z.to_nat RD03D_FRAME_SIZE ->
  exists s',
    processByte now now_frame b s = Some s' /\
    (FRAME_HEADER !! Z.to_nat (_syncIdx s) = Some b ->
     _frameBuf s' = <[Z.to_nat (_syncIdx s) := b]> (_frameBuf s) /\
     _syncIdx s' = _syncIdx s + 1 /\
     (_syncIdx s' = 4 -> _parserState s' = RD03D_READ_DATA /\ _frameIdx s' = 4) /\
     (_syncIdx s' < 4 -> _parserState s' = RD03D_SYNC_HEADER)) /\
    (FRAME_HEADER !! Z.to_nat (_syncIdx s) <> Some b ->
     FRAME_HEADER !! 0%nat = Some b ->
     _parserState s' = RD03D_SYNC_HEADER /\
     _syncIdx s' = 1 /\
     _frameBuf s' = <[0%nat := b]> (_frameBuf s)) /\
    (FRAME_HEADER !! Z.to_nat (_syncIdx s) <> Some b ->
     FRAME_HEADER !! 0%nat <> Some b ->
     _parserState s' = RD03D_SYNC_HEADER /\
     _syncIdx s' = 0 /\
     _frameBuf s' = _frameBuf s) /\
    _errorCount s' = _errorCount s /\
    _frameCount s' = _frameCount s /\
    _targets s' = _targets s /\
    calls s' = calls s.
Proof.
  intros Hst Hidx Hlen.
  destruct (header_lookup (_syncIdx s) Hidx) as [h Hh].
  rewrite (processByte_sync now now_frame b h s Hst Hidx Hlen Hh).
  rewrite arr_get_in in Hh by lia.
  eexists. split; [reflexivity |].
  rewrite Hh.
  destruct (Byte.eqb b h) eqn:Ebh.
  - apply Byte.byte_dec_bl in Ebh. subst h.
    cbv zeta.
    destruct (Z.eqb_spec (_syncIdx s) 3) as [E3 | N3]; proj;
      repeat split; try congruence; try lia.
  - apply Byte.eqb_false in Ebh.
    destruct (Byte.eqb b xaa) eqn:Eba.
    + apply Byte.byte_dec_bl in Eba. subst b.
      proj. repeat split; try congruence; try lia.
      all: match goal with Hn : FRAME_HEADER !! 0%nat <> _ |- _ =>
             exfalso; apply Hn; reflexivity end.
    + apply Byte.eqb_false in Eba.
      proj. repeat split; try congruence; try lia.
      all: match goal with Hn : FRAME_HEADER !! 0%nat = _ |- _ =>
             exfalso; apply Eba; simpl in Hn; congruence end.
Qed.

Lemma tail_test (buf : list byte) (b b28 : byte) :
  length buf = Z.to_nat RD03D_FRAME_SIZE ->
  buf !! 28%nat = Some b28 ->
  Byte.eqb b28 x55 && Byte.eqb b xcc = true
  <-> drop 28 (<[29%nat := b]> buf) = FRAME_TAIL.
Proof.
  intros Hlen H28.
  change (Z.to_nat RD03D_FRAME_SIZE) with 30%nat in Hlen.
  do 30 (destruct buf as [| ? buf]; [discriminate Hlen |]).
  destruct buf; [| discriminate Hlen].
  simpl in H28. injection H28 as ->.
  cbn [list_insert insert drop]. unfold FRAME_TAIL.
  rewrite andb_true_iff. split.
  - intros [E1 E2]. apply Byte.byte_dec_bl in E1, E2. congruence.
  - intros E. injection E as -> ->. split; apply byte_eqb_refl.
Qed.

(** C6.  The byte that fills the buffer to 30.  The frame is decoded and
    dispatched exactly when its last two bytes are the tail marker;
    otherwise the error counter goes up by one ([uint32_t] arithmetic) and
    the frame is dropped, nothing decoded and nobody called.  Either way the
    parser is back to SyncSeeking. *)
Theorem full_buffer_tail_check (now now_frame : Z) (b : byte) (s : RD03D) :
  _parserState s = RD03D_READ_DATA ->
  _frameIdx s = 29 ->
  sized s ->
  let buf' := <[29%nat := b]> (_frameBuf s) in
  let decoded :=
    spec_targets (frame_block buf' 0) (frame_block buf' 1) (frame_block buf' 2) in
  exists s',
    processByte now now_frame b s = Some s' /\
    (_parserState s' = RD03D_SYNC_HEADER /\ _syncIdx s' = 0 /\ _frameIdx s' = 0) /\
    (drop 28 buf' = FRAME_TAIL ->
     _targets s' = decoded /\
     _frameCount s' = u32 (_frameCount s + 1) /\
     _errorCount s' = _errorCount s /\
     calls s' = calls s ++
                match _frameCallback s with
                | Some cb => [mkInvocation cb decoded (spec_count decoded)]
                | None => []
                end) /\
    (drop 28 buf' <> FRAME_TAIL ->
     _errorCount s' = u32 (_errorCount s + 1) /\
     _targets s' = _targets s /\
     _frameCount s' = _frameCount s /\
     calls s' = calls s) /\
    (_frameCallback s <> None ->
     (calls s' <> calls s <-> drop 28 buf' = FRAME_TAIL)).
Proof.
  intros Hst Hidx Hsz buf' decoded. pose proof Hsz as [Hlen Hts].
  destruct (lookup_lt_is_Some_2 (_frameBuf s) 28) as [b28 H28].
  { rewrite Hlen. change (Z.to_nat RD03D_FRAME_SIZE) with 30%nat. lia. }
  pose proof (tail_test (_frameBuf s) b b28 Hlen H28) as Htail.
  fold buf' in Htail.
  rewrite (processByte_read_last now now_frame b b28 s Hst Hidx Hlen H28).
  cbv zeta.
  destruct (Byte.eqb b28 x55 && Byte.eqb b xcc).
  - assert (Hyes : drop 28 buf' = FRAME_TAIL) by (apply Htail; reflexivity).
    rewrite dispatch_full_buffer.
    2:{ split; proj; [rewrite length_insert; exact Hlen | exact Hts]. }
    eexists. split; [reflexivity |].
    unfold resetParser, dispatched. proj. fold buf'. fold decoded.
    destruct (_frameCallback s) as [cb |] eqn:Ecb; proj.
    + repeat split; try reflexivity; try contradiction; try (intros _; exact Hyes).
      intros _ Heq.
      apply (f_equal length) in Heq. rewrite length_app in Heq. simpl in Heq. lia.
    + rewrite app_nil_r.
      repeat split; try reflexivity; try contradiction; try (intros _; exact Hyes).
  - assert (Hno : drop 28 buf' <> FRAME_TAIL).
    { intros E. apply Htail in E. discriminate E. }
    eexists. split; [reflexivity |].
    unfold resetParser. proj.
    repeat split; try reflexivity; try contradiction; try tauto.
Qed.

(** ** Whole frames *)

Lemma fresh_initial (buf0 : list byte) (cb : RD03D_FrameCallback) :
  length buf0 = Z.to_nat RD03D_FRAME_SIZE -> initial cb (fresh buf0 cb).
Proof.
  intros Hlen. unfold initial, sized. simpl. repeat split; auto.
Qed.

Lemma begin_initial (now1 now2 : Z) (cb : RD03D_FrameCallback) (s : RD03D) :
  initial cb s -> initial cb (begin now1 now2 s).
Proof.
  unfold initial, sized. simpl. tauto.
Qed.

(** C1.  From the initial parser state, the stream made of the header,
    three target blocks and the tail marker makes the registered callback
    run exactly once; the three targets hold the expected decode of the
    three blocks, and the count handed over is the number of valid targets,
    between 0 and 3. *)
Theorem valid_frame_one_callback
  (cb : RD03D_FrameCallback) (s0 : RD03D) (rx : list Rx) (k1 k2 k3 : Block) :
  initial cb s0 ->
  map rx_byte rx = frame_bytes k1 k2 k3 ->
  exists s' count,
    processBytes rx s0 = Some s' /\
    calls s' = [mkInvocation cb (spec_targets k1 k2 k3) count] /\
    _targets s' = spec_targets k1 k2 k3 /\
    count = Z.of_nat (length (List.filter t_valid (_targets s'))) /\
    0 <= count <= 3.
Proof.
  intros (Hst & Hsi & _ & Hcalls & Hcb & Hsz) Hrx.
  destruct (frame_from_sync rx k1 k2 k3 s0 Hst ltac:(lia) Hsz Hrx) as (t & tf & E).
  rewrite E. eexists. exists (spec_count (spec_targets k1 k2 k3)).
  split; [reflexivity |].
  unfold resetParser, dispatched. proj. rewrite Hcb. proj. rewrite Hcalls.
  repeat split; try reflexivity; apply spec_count_range.
Qed.

(** C2, as the code has it.  Noise that leaves the parser seeking a header
    - not in the middle of collecting a frame begun by a header pattern in
    the noise - does not prevent the following valid frame from being
    synchronised on and decoded: the callback runs for that frame, after
    whatever the noise caused, with the expected targets. *)
Theorem frame_after_noise
  (cb : RD03D_FrameCallback) (s0 : RD03D) (noise : list Rx) :
  initial cb s0 ->
  exists s1,
    processBytes noise s0 = Some s1 /\
    (_parserState s1 = RD03D_SYNC_HEADER ->
     forall (rx : list Rx) (k1 k2 k3 : Block),
       map rx_byte rx = frame_bytes k1 k2 k3 ->
       exists s',
         processBytes (noise ++ rx) s0 = Some s' /\
         calls s' = calls s1 ++ [spec_invocation cb k1 k2 k3] /\
         _targets s' = spec_targets k1 k2 k3).
Proof.
  intros (Hst & Hsi & _ & _ & Hcb & Hsz).
  destruct (processBytes_preserves noise s0 Hsz) as (s1 & E1 & Hsz1 & Hinv1 & Hcb1).
  { unfold parser_inv. rewrite Hst. lia. }
  exists s1. split; [exact E1 |].
  intros Hst1 rx k1 k2 k3 Hrx.
  unfold parser_inv in Hinv1. rewrite Hst1 in Hinv1.
  destruct (frame_from_sync rx k1 k2 k3 s1 Hst1 Hinv1 Hsz1 Hrx) as (t & tf & E).
  rewrite processBytes_app, E1. cbn [mbind option_bind]. rewrite E.
  eexists. split; [reflexivity |].
  unfold resetParser, dispatched. proj. rewrite Hcb1, Hcb. proj.
  split; reflexivity.
Qed.

(** ** Derived distance

    The block with x = 30 mm and y = 40 mm decodes to a distance of exactly
    5.0 cm in single precision, on every platform. *)
Lemma sample_distance :
  exists s' t,
    parseTarget 0 4 sample_full = Some s' /\
    _targets s' !! 0%nat = Some t /\
    t_x t = 30 /\ t_y t = 40 /\
    t_distance t = f32_of_Z 5.
Proof.
  destruct (parseTarget_decodes 0 4 sample_full sample_k1) as (s' & E & Ht).
  - lia.
  - split; reflexivity.
  - split; [lia | reflexivity].
  - exists s', (spec_target sample_k1). split; [exact E |]. split; [exact Ht |].
    repeat split; vm_compute; reflexivity.
Qed.

(** ** Timeout *)

(** A polling pass that finds the parser seeking a header only runs the
    receive loop. *)
Lemma update_seeking (now : Z) (rx : list Rx) (s : RD03D) :
  _serial s = true ->
  _parserState s = RD03D_SYNC_HEADER ->
  update now rx s = processBytes rx s.
Proof.
  intros Hser Hst. unfold update, timed_out. rewrite Hser, Hst. reflexivity.
Qed.

(** C7.  A full header followed by fewer than 26 payload bytes, received in
    a polling pass, leaves the parser collecting.  A processing step taken
    when more than the configured timeout has passed since the last of those
    bytes abandons the partial frame: the error counter goes up by one
    ([uint32_t] arithmetic), the callback has not been and is not called,
    and the parser is back to SyncSeeking before any further byte is looked
    at. *)
Theorem truncated_frame_timeout
  (s0 : RD03D) (rx : list Rx) (r : Rx) (payload : list byte) (now : Z) :
  _serial s0 = true ->
  _parserState s0 = RD03D_SYNC_HEADER ->
  0 <= _syncIdx s0 <= 3 ->
  sized s0 ->
  map rx_byte rx = FRAME_HEADER ++ payload ->
  (length payload < 26)%nat ->
  last rx = Some r ->
  _timeoutMs s0 < u32 (now - rx_millis r) ->
  exists s1 s2,
    processBytes rx s0 = Some s1 /\
    (forall t0, update t0 rx s0 = Some s1) /\
    _parserState s1 = RD03D_READ_DATA /\
    update now [] s1 = Some s2 /\
    _errorCount s2 = u32 (_errorCount s0 + 1) /\
    calls s2 = calls s0 /\
    _parserState s2 = RD03D_SYNC_HEADER /\
    _syncIdx s2 = 0 /\
    _frameIdx s2 = 0 /\
    (forall rx', update now rx' s1 = processBytes rx' s2).
Proof.
  intros Hser Hst Hidx Hsz Hrx Hlen Hlast Hlate.
  pose proof Hsz as [Hbuf _].
  assert (Hinv : parser_inv s0) by (unfold parser_inv; rewrite Hst; exact Hidx).
  pose proof Hrx as Hrx0.
  apply map_eq_app in Hrx as (rxH & rxP & -> & HrxH & HrxP).
  destruct (header_sync rxH s0 Hst Hidx Hbuf HrxH) as [tH EH].
  assert (HlenP : (length rxP < 26)%nat).
  { rewrite <- (length_map rx_byte), HrxP. exact Hlen. }
  edestruct (collect rxP) as [tP EP];
    [| | | | pose proof (processBytes_app rxH rxP s0) as Erun;
             rewrite EH in Erun; cbn [mbind option_bind] in Erun;
             rewrite EP in Erun].
  - reflexivity.
  - proj. lia.
  - proj. lia.
  - proj. rewrite length_inserts. exact Hbuf.
  - pose proof (processBytes_lastByteTime _ _ _ r Hsz Hinv Erun Hlast) as Ht.
    revert Ht Erun. proj. intros Ht Erun. subst tP.
    eexists. eexists. split; [exact Erun |].
    split; [intros t0; rewrite update_seeking by assumption; exact Erun |].
    split; [reflexivity |].
    unfold update, timed_out. proj. rewrite Hser. cbn [negb].
    destruct (Z.ltb_spec (_timeoutMs s0) (u32 (now - rx_millis r))) as [_ | Hge]; [| lia].
    split; [reflexivity |].
    unfold resetParser. proj. repeat split; reflexivity.
Qed.

(** ** Further properties of the decoder and the query surface *)

Lemma spec_sign_magnitude_range (raw : Z) :
  -32767 <= spec_sign_magnitude raw <= 32767.
Proof.
  pose proof (magnitude_range raw) as Hm.
  unfold spec_sign_magnitude. cbv zeta.
  destruct (Z.testbit raw 15); lia.
Qed.

(** X1.  [parseTarget] changes nothing of the driver but the slot it is
    given, and what it stores there fits the fields: x and speed lie between
    -32767 and 32767 (the negation never overflows), y between -32768 and
    32767, and the distance code of a valid target is the raw 16-bit field
    unmodified. *)
Theorem decoded_field_ranges (index data : Z) (s : RD03D) (k : Block) :
  0 <= index < 3 ->
  sized s ->
  block_at (_frameBuf s) data k ->
  exists t,
    parseTarget index data s
    = Some (with_targets (<[Z.to_nat index := t]> (_targets s)) s) /\
    -32767 <= t_x t <= 32767 /\
    -32768 <= t_y t <= 32767 /\
    -32767 <= t_speed t <= 32767 /\
    0 <= t_distanceRaw t <= 65535 /\
    (t_valid t = true -> t_distanceRaw t = rawDistanceCode k).
Proof.
  intros Hidx Hsz Hk.
  exists (spec_target k). split; [apply parseTarget_slot; assumption |].
  pose proof (spec_sign_magnitude_range (rawX k)) as Hx.
  pose proof (spec_sign_magnitude_range (rawSpeed k)) as Hv.
  pose proof (spec_le16_range (blk2 k) (blk3 k)) as Hy. fold (rawY k) in Hy.
  pose proof (spec_le16_range (blk6 k) (blk7 k)) as Hd. fold (rawDistanceCode k) in Hd.
  unfold spec_target, spec_offset.
  destruct (spec_valid k); cbn [t_x t_y t_speed t_distanceRaw t_valid];
    repeat split; try lia; try reflexivity; discriminate.
Qed.

(** A complete frame taken from a header-seeking state, with the clock
    readings that end up in the object: those of its last byte. *)
Lemma frame_from_sync_clock (rx : list Rx) (r : Rx) (k1 k2 k3 : Block) (s : RD03D) :
  _parserState s = RD03D_SYNC_HEADER ->
  0 <= _syncIdx s <= 3 ->
  sized s ->
  map rx_byte rx = frame_bytes k1 k2 k3 ->
  last rx = Some r ->
  processBytes rx s =
  Some (resetParser
          (dispatched (rx_millis_frame r) k1 k2 k3
             (with_frameBuf (frame_bytes k1 k2 k3) (with_lastByteTime (rx_millis r) s)))).
Proof.
  intros Hst Hidx [Hlen Hts] Hrx Hlast.
  change (frame_bytes k1 k2 k3)
    with (FRAME_HEADER
            ++ (block_bytes k1 ++ block_bytes k2 ++ block_bytes k3 ++ [x55])
            ++ [xcc]) in Hrx.
  apply map_eq_app in Hrx as (rxH & rx' & -> & HrxH & Hrx').
  apply map_eq_app in Hrx' as (rxP & rxT & -> & HrxP & HrxT).
  destruct rxT as [| [bT tT fT] [| r' rxT]]; try discriminate HrxT.
  injection HrxT as ->.
  rewrite !app_assoc, last_snoc in Hlast. injection Hlast as <-.
  destruct (header_sync rxH s Hst Hidx Hlen HrxH) as [tH EH].
  rewrite processBytes_app, EH. cbn [mbind option_bind].
  assert (HlenP : length rxP = 25%nat).
  { rewrite <- (length_map rx_byte), HrxP. reflexivity. }
  destruct s as [ser ts cb buf fi si st lb lf tm fc ec cs].
  simpl in Hst, Hidx, Hlen, Hts. subst st.
  fields.
  rewrite processBytes_app.
  edestruct (collect rxP) as [tP EP]; [| | | | rewrite EP].
  - reflexivity.
  - simpl. lia.
  - simpl. rewrite HlenP. lia.
  - fields. rewrite length_inserts. exact Hlen.
  - cbn [mbind option_bind]. fields. rewrite HlenP, HrxP.
    change (Z.to_nat RD03D_FRAME_SIZE) with 30%nat in Hlen.
    do 30 (destruct buf as [| ? buf]; [discriminate Hlen |]).
    destruct buf; [| discriminate Hlen].
    cbn [processBytes rx_byte rx_millis rx_millis_frame].
    erewrite processByte_read_last; [| reflexivity | reflexivity | reflexivity | reflexivity].
    cbv zeta. fields.
    change (Byte.eqb x55 x55 && Byte.eqb xcc xcc) with true. cbv iota.
    erewrite (processFrame_spec fT _ k1 k2 k3);
      [| split; [reflexivity | exact Hts] | split; [lia | reflexivity]
       | split; [lia | reflexivity] | split; [lia | reflexivity]].
    destruct cb; reflexivity.
Qed.

(** X2.  After a valid frame the query functions return what was decoded:
    [getTarget] gives the decode of block [i] for [i] = 0, 1, 2 and no
    result for every other index a [uint8_t] can hold, 3 to 255 (a larger
    argument is reduced modulo 256 on the way in), [getTargetCount] the
    count the callback was handed, [getFrameCount] one more than before,
    [getErrorCount] the same as before. *)
Theorem queries_after_frame
  (cb : RD03D_FrameCallback) (s : RD03D) (rx : list Rx) (k1 k2 k3 : Block) :
  _parserState s = RD03D_SYNC_HEADER ->
  0 <= _syncIdx s <= 3 ->
  sized s ->
  _frameCallback s = Some cb ->
  map rx_byte rx = frame_bytes k1 k2 k3 ->
  exists s' count,
    processBytes rx s = Some s' /\
    last (calls s') = Some (mkInvocation cb (spec_targets k1 k2 k3) count) /\
    getTarget 0 s' = Some (spec_target k1) /\
    getTarget 1 s' = Some (spec_target k2) /\
    getTarget 2 s' = Some (spec_target k3) /\
    (forall i, 3 <= i <= 255 -> getTarget i s' = None) /\
    (forall i, getTarget (i + 256) s' = getTarget i s') /\
    getTargets s' = [spec_target k1; spec_target k2; spec_target k3] /\
    getTargetCount s' = Some count /\
    getFrameCount s' = u32 (getFrameCount s + 1) /\
    getErrorCount s' = getErrorCount s.
Proof.
  intros Hst Hidx Hsz Hcb Hrx.
  destruct (frame_from_sync rx k1 k2 k3 s Hst Hidx Hsz Hrx) as (t & tf & E).
  rewrite E. eexists. exists (spec_count (spec_targets k1 k2 k3)).
  split; [reflexivity |].
  unfold getTarget, getTargets, getFrameCount, getErrorCount, resetParser, dispatched.
  proj. rewrite Hcb. proj.
  split; [apply last_snoc |].
  split; [reflexivity |]. split; [reflexivity |]. split; [reflexivity |].
  split.
  { intros i Hi. cbv zeta. unfold RD03D_MAX_TARGETS, u8.
    rewrite Z.mod_small by lia.
    destruct (Z.leb_spec 3 i); [reflexivity | lia]. }
  split.
  { intros i. cbv zeta. unfold u8.
    replace (i + 256) with (i + 1 * 256) by lia.
    rewrite Z.mod_add by lia. reflexivity. }
  split; [reflexivity |].
  split; [| split; reflexivity].
  rewrite getTargetCount_spec by reflexivity. reflexivity.
Qed.

(** ** Registration, restart and connectivity *)

(** X3.  The callback slot holds one registration.  Registering a second
    callback replaces the first: a valid frame is handed to the second
    only.  Registering none afterwards silences the driver without stopping
    it: the frame is still decoded and counted. *)
Theorem callback_single_slot
  (cb1 cb2 : RD03D_FrameCallback) (s : RD03D) (rx : list Rx) (k1 k2 k3 : Block) :
  _parserState s = RD03D_SYNC_HEADER ->
  0 <= _syncIdx s <= 3 ->
  sized s ->
  map rx_byte rx = frame_bytes k1 k2 k3 ->
  (exists s',
      processBytes rx (onFrame (Some cb2) (onFrame (Some cb1) s)) = Some s' /\
      calls s' = calls s ++ [spec_invocation cb2 k1 k2 k3]) /\
  (exists s',
      processBytes rx (onFrame None (onFrame (Some cb1) s)) = Some s' /\
      calls s' = calls s /\
      _targets s' = spec_targets k1 k2 k3 /\
      _frameCount s' = u32 (_frameCount s + 1)).
Proof.
  intros Hst Hidx Hsz Hrx. split.
  - destruct (frame_from_sync rx k1 k2 k3 (onFrame (Some cb2) (onFrame (Some cb1) s)))
      as (t & tf & E); [exact Hst | exact Hidx | exact Hsz | exact Hrx |].
    rewrite E. eexists. split; reflexivity.
  - destruct (frame_from_sync rx k1 k2 k3 (onFrame None (onFrame (Some cb1) s)))
      as (t & tf & E); [exact Hst | exact Hidx | exact Hsz | exact Hrx |].
    rewrite E. eexists. repeat split; reflexivity.
Qed.

Lemma u32_elapsed (t d : Z) :
  uint32 t -> uint32 d -> u32 (u32 (t + d) - t) = d.
Proof.
  unfold uint32, u32. intros Ht Hd.
  rewrite Zminus_mod_idemp_l.
  replace (t + d - t) with d by lia.
  apply Z.mod_small. exact Hd.
Qed.

(** X4.  [begin] restarts the parser whatever it was doing - a partial
    frame is forgotten and the next valid frame is dispatched - and attaches
    the port, but keeps the counters, the targets and the registered
    callback.  From then on [isConnected] measures from the time of
    [begin], so it answers yes during the first second although no frame
    has arrived. *)
Theorem begin_restarts
  (now1 now2 : Z) (cb : RD03D_FrameCallback) (s : RD03D) (rx : list Rx) (k1 k2 k3 : Block) :
  sized s ->
  _frameCallback s = Some cb ->
  map rx_byte rx = frame_bytes k1 k2 k3 ->
  _serial (begin now1 now2 s) = true /\
  _frameCount (begin now1 now2 s) = _frameCount s /\
  _errorCount (begin now1 now2 s) = _errorCount s /\
  _targets (begin now1 now2 s) = _targets s /\
  (forall d, uint32 now2 -> uint32 d ->
             isConnected (u32 (now2 + d)) (begin now1 now2 s) = (d <? 1000)) /\
  exists s',
    processBytes rx (begin now1 now2 s) = Some s' /\
    calls s' = calls s ++ [spec_invocation cb k1 k2 k3] /\
    _targets s' = spec_targets k1 k2 k3.
Proof.
  intros Hsz Hcb Hrx.
  split; [reflexivity |]. split; [reflexivity |]. split; [reflexivity |].
  split; [reflexivity |]. split.
  - intros d Ht Hd. unfold isConnected, begin. proj.
    rewrite u32_elapsed by assumption. reflexivity.
  - destruct (frame_from_sync rx k1 k2 k3 (begin now1 now2 s)) as (t & tf & E);
      [reflexivity | simpl; lia | exact Hsz | exact Hrx |].
    rewrite E. eexists. split; [reflexivity |].
    unfold begin, dispatched, resetParser. proj. rewrite Hcb. proj.
    split; reflexivity.
Qed.

(** X5.  [isConnected] after a frame: [d] milliseconds after the frame was
    dispatched the answer is yes exactly when [d] is below 1000, also when
    the millisecond counter has wrapped around in between. *)
Theorem connected_after_frame
  (s : RD03D) (rx : list Rx) (r : Rx) (k1 k2 k3 : Block) (d : Z) :
  _parserState s = RD03D_SYNC_HEADER ->
  0 <= _syncIdx s <= 3 ->
  sized s ->
  map rx_byte rx = frame_bytes k1 k2 k3 ->
  last rx = Some r ->
  uint32 (rx_millis_frame r) ->
  uint32 d ->
  exists s',
    processBytes rx s = Some s' /\
    isConnected (u32 (rx_millis_frame r + d)) s' = (d <? 1000).
Proof.
  intros Hst Hidx Hsz Hrx Hlast Ht Hd.
  rewrite (frame_from_sync_clock rx r k1 k2 k3 s Hst Hidx Hsz Hrx Hlast).
  eexists. split; [reflexivity |].
  unfold isConnected, resetParser, dispatched. proj.
  destruct (_frameCallback s); proj; rewrite u32_elapsed by assumption; reflexivity.
Qed.

(** ** Polling *)

(** X6.  The timeout is strict and survives the wrap-around of the clock.
    While collecting, a polling pass [d] milliseconds after the last byte -
    the clock possibly having wrapped in between - leaves the partial frame
    alone when [d] is at most the threshold given to [setTimeout], a
    [uint16_t] value, and abandons it, counting one error, when [d] is
    larger. *)
Theorem timeout_threshold (timeoutMs d : Z) (s : RD03D) :
  0 <= timeoutMs < 65536 ->
  _serial s = true ->
  _parserState s = RD03D_READ_DATA ->
  uint32 (_lastByteTime s) ->
  uint32 d ->
  (d <= timeoutMs ->
   update (u32 (_lastByteTime s + d)) [] (setTimeout timeoutMs s)
   = Some (setTimeout timeoutMs s)) /\
  (timeoutMs < d ->
   exists s',
     update (u32 (_lastByteTime s + d)) [] (setTimeout timeoutMs s) = Some s' /\
     _parserState s' = RD03D_SYNC_HEADER /\
     _syncIdx s' = 0 /\
     _errorCount s' = u32 (_errorCount s + 1) /\
     _frameCount s' = _frameCount s /\
     calls s' = calls s /\
     _targets s' = _targets s).
Proof.
  intros Hrange Hser Hst Ht Hd.
  unfold update, timed_out, setTimeout, u16. rewrite Z.mod_small by exact Hrange.
  proj. rewrite Hser, Hst. cbn [negb].
  rewrite u32_elapsed by assumption.
  split; intros Hcmp.
  - destruct (Z.ltb_spec timeoutMs d); [lia | reflexivity].
  - destruct (Z.ltb_spec timeoutMs d); [| lia].
    eexists. split; [reflexivity |]. repeat split; reflexivity.
Qed.

Lemma update_preserves (now : Z) (rx : list Rx) (s : RD03D) :
  sized s ->
  parser_inv s ->
  exists s', update now rx s = Some s' /\ sized s' /\ parser_inv s'.
Proof.
  intros Hsz Hinv. unfold update.
  destruct (_serial s); cbn [negb]; [| exists s; auto].
  destruct (timed_out now s).
  - destruct (processBytes_preserves rx
                (resetParser (with_errorCount (u32 (_errorCount s + 1)) s)))
      as (s' & E & H1 & H2 & _).
    + exact Hsz.
    + unfold parser_inv. simpl. lia.
    + exists s'. auto.
  - destruct (processBytes_preserves rx s Hsz Hinv) as (s' & E & H1 & H2 & _).
    exists s'. auto.
Qed.

(** X7.  Polling never leaves the arrays.  Whatever the clock readings and
    the bytes of each pass, a sequence of [update] calls on a constructed
    and started driver runs to the end without an out-of-range access and
    leaves the parser indices within their bounds. *)
Theorem polling_in_bounds (passes : list (Z * list Rx)) :
  forall s : RD03D,
    sized s ->
    parser_inv s ->
    exists s', polls passes s = Some s' /\ sized s' /\ parser_inv s'.
Proof.
  induction passes as [| [now rx] rest IH]; intros s Hsz Hinv.
  - exists s. auto.
  - destruct (update_preserves now rx s Hsz Hinv) as (s1 & E1 & Hsz1 & Hinv1).
    destruct (IH s1 Hsz1 Hinv1) as (s' & E' & Hsz' & Hinv').
    exists s'. cbn [polls]. rewrite E1. cbn [mbind option_bind]. auto.
Qed.

(** What one byte can do to the object: the port and the threshold are
    never touched, and as long as the buffer cannot fill with this byte,
    nothing is counted or dispatched either. *)
Lemma processByte_outcome (now now_frame : Z) (b : byte) (s : RD03D) :
  sized s ->
  parser_inv s ->
  exists s',
    processByte now now_frame b s = Some s' /\
    sized s' /\ parser_inv s' /\
    _serial s' = _serial s /\
    _timeoutMs s' = _timeoutMs s /\
    (1 < until_full s -> quiet s s' /\ until_full s - 1 <= until_full s').
Proof.
  intros [Hlen Hts] Hinv.
  destruct s as [ser ts cb buf fi si st lb lf tm fc ec cs].
  unfold parser_inv in Hinv. simpl in Hlen, Hts, Hinv.
  destruct st.
  - destruct (header_lookup si Hinv) as [h Hh].
    erewrite processByte_sync; [| reflexivity | exact Hinv | exact Hlen | exact Hh].
    eexists. split; [reflexivity |].
    unfold sized, parser_inv, quiet, until_full, RD03D_FRAME_SIZE. proj.
    destruct (Byte.eqb b h); [destruct (Z.eqb_spec si 3) | destruct (Byte.eqb b xaa)];
      cbv zeta; fields; rewrite ?length_insert; repeat split; auto; lia.
  - destruct (Z.eq_dec fi 29) as [-> | Hne].
    + destruct (lookup_lt_is_Some_2 buf 28) as [b28 H28].
      { rewrite Hlen. change (Z.to_nat RD03D_FRAME_SIZE) with 30%nat. lia. }
      erewrite processByte_read_last; [| reflexivity | reflexivity | exact Hlen | exact H28].
      cbv zeta.
      destruct (Byte.eqb b28 x55 && Byte.eqb b xcc).
      * rewrite dispatch_full_buffer.
        2:{ split; fields; [rewrite length_insert; exact Hlen | exact Hts]. }
        eexists. split; [reflexivity |].
        unfold sized, parser_inv, dispatched, resetParser, until_full, RD03D_FRAME_SIZE.
        fields.
        destruct cb; fields; rewrite ?length_insert; repeat split; auto; lia.
      * eexists. split; [reflexivity |].
        unfold sized, parser_inv, resetParser, until_full, RD03D_FRAME_SIZE. fields.
        rewrite ?length_insert; repeat split; auto; lia.
    + rewrite processByte_read_store; [| reflexivity | simpl; lia | exact Hlen].
      eexists. split; [reflexivity |].
      unfold sized, parser_inv, quiet, until_full, RD03D_FRAME_SIZE. fields.
      rewrite ?length_insert; repeat split; auto; lia.
Qed.

Lemma processBytes_config (rx : list Rx) :
  forall s s' : RD03D,
    sized s ->
    parser_inv s ->
    processBytes rx s = Some s' ->
    _serial s' = _serial s /\ _timeoutMs s' = _timeoutMs s.
Proof.
  induction rx as [| r rx IH]; intros s s' Hsz Hinv Hrun.
  - injection Hrun as <-. auto.
  - destruct (processByte_outcome (rx_millis r) (rx_millis_frame r) (rx_byte r) s Hsz Hinv)
      as (s1 & E1 & Hsz1 & Hinv1 & Hser1 & Htm1 & _).
    cbn [processBytes] in Hrun. rewrite E1 in Hrun. cbn [mbind option_bind] in Hrun.
    destruct (IH s1 s' Hsz1 Hinv1 Hrun) as [Hser Htm].
    split; congruence.
Qed.

(** X8.  How a stream is cut into polling passes does not matter as long
    as no timeout fires in between: two passes, the second finding the
    parser seeking or within the timeout, leave the driver where one pass
    with all the bytes would. *)
Theorem polling_split_delivery (t1 t2 : Z) (rx1 rx2 : list Rx) (s s1 : RD03D) :
  sized s ->
  parser_inv s ->
  _serial s = true ->
  update t1 rx1 s = Some s1 ->
  timed_out t2 s1 = false ->
  polls [(t1, rx1); (t2, rx2)] s = update t1 (rx1 ++ rx2) s.
Proof.
  intros Hsz Hinv Hser H1 Hquiet.
  cbn [polls]. rewrite H1. cbn [mbind option_bind].
  unfold update in H1 |- *. rewrite Hser in H1 |- *. cbn [negb] in H1 |- *.
  set (s0 := if timed_out t1 s
             then resetParser (with_errorCount (u32 (_errorCount s + 1)) s)
             else s) in *.
  assert (Hs0 : sized s0 /\ parser_inv s0 /\ _serial s0 = true).
  { subst s0. destruct (timed_out t1 s).
    - split; [exact Hsz |]. split; [unfold parser_inv; simpl; lia | exact Hser].
    - auto. }
  destruct Hs0 as (Hsz0 & Hinv0 & Hser0).
  destruct (processBytes_config rx1 s0 s1 Hsz0 Hinv0 H1) as [Hser1 _].
  rewrite Hser1, Hser0. cbn [negb]. rewrite Hquiet.
  rewrite processBytes_app, H1. cbn [mbind option_bind].
  destruct (processBytes rx2 s1); reflexivity.
Qed.

Lemma quiet_refl (s : RD03D) : quiet s s.
Proof. unfold quiet. auto. Qed.

Lemma quiet_trans (s1 s2 s3 : RD03D) : quiet s1 s2 -> quiet s2 s3 -> quiet s1 s3.
Proof.
  unfold quiet. intros (A1 & A2 & A3 & A4 & A5) (B1 & B2 & B3 & B4 & B5).
  repeat split; congruence.
Qed.

Lemma quiet_run (rx : list Rx) :
  forall s : RD03D,
    sized s ->
    parser_inv s ->
    Z.of_nat (length rx) < until_full s ->
    exists s', processBytes rx s = Some s' /\ quiet s s'.
Proof.
  induction rx as [| r rx IH]; intros s Hsz Hinv Hlen.
  - exists s. split; [reflexivity | apply quiet_refl].
  - simpl length in Hlen.
    destruct (processByte_outcome (rx_millis r) (rx_millis_frame r) (rx_byte r) s Hsz Hinv)
      as (s1 & E1 & Hsz1 & Hinv1 & _ & _ & Hq).
    destruct Hq as [Hq Hu]; [lia |].
    destruct (IH s1 Hsz1 Hinv1) as (s' & E' & Hq'); [lia |].
    exists s'. cbn [processBytes]. rewrite E1. cbn [mbind option_bind].
    split; [exact E' | exact (quiet_trans _ _ _ Hq Hq')].
Qed.

(** X9.  No event before the buffer can be full.  A run of fewer bytes than
    are still missing from the header and the payload - fewer than 30 when
    the parser is at the start of a header - counts no frame and no error,
    runs no callback and leaves the targets as they were, whatever the bytes
    are. *)
Theorem no_event_before_full (rx : list Rx) (s : RD03D) :
  sized s ->
  parser_inv s ->
  Z.of_nat (length rx) < until_full s ->
  (_parserState s = RD03D_SYNC_HEADER -> _syncIdx s = 0 -> until_full s = 30) /\
  exists s',
    processBytes rx s = Some s' /\
    _frameCount s' = _frameCount s /\
    _errorCount s' = _errorCount s /\
    _targets s' = _targets s /\
    calls s' = calls s.
Proof.
  intros Hsz Hinv Hlen. split.
  - intros Hst Hidx. unfold until_full. rewrite Hst, Hidx. reflexivity.
  - destruct (quiet_run rx s Hsz Hinv Hlen) as (s' & E & H1 & H2 & _ & H4 & H5).
    exists s'. auto.
Qed.

(** ** Noise without a header *)

Lemma no_header_prefix (bs : list byte) (b : byte) :
  ~ contains_header (bs ++ [b]) -> ~ contains_header bs.
Proof.
  intros Hno (pre & post & ->). apply Hno.
  exists pre, (post ++ [b]). rewrite <- !app_assoc. reflexivity.
Qed.

(** While no header has gone by, the parser is seeking, and its sync index
    is the length of the header prefix the bytes end with. *)
Lemma seeking_tracks_prefix (s : RD03D) :
  _parserState s = RD03D_SYNC_HEADER ->
  _syncIdx s = 0 ->
  sized s ->
  forall noise : list Rx,
    ~ contains_header (map rx_byte noise) ->
    exists s1,
      processBytes noise s = Some s1 /\
      _parserState s1 = RD03D_SYNC_HEADER /\
      0 <= _syncIdx s1 <= 3 /\
      sized s1 /\
      quiet s s1 /\
      _frameCallback s1 = _frameCallback s /\
      exists pre,
        map rx_byte noise = pre ++ take (Z.to_nat (_syncIdx s1)) FRAME_HEADER.
Proof.
  intros Hst Hidx Hsz noise.
  induction noise as [| r noise IH] using rev_ind; intros Hno.
  - exists s. rewrite Hidx. repeat split; auto; try lia; try apply Hsz.
    exists []. reflexivity.
  - rewrite map_app in Hno. cbn [map] in Hno.
    destruct (IH (no_header_prefix _ _ Hno))
      as (s1 & E1 & Hst1 & Hidx1 & Hsz1 & Hq1 & Hcb1 & pre & Hpre).
    rewrite processBytes_app, E1. cbn [mbind option_bind processBytes].
    rewrite map_app. cbn [map]. rewrite Hpre in Hno |- *.
    destruct r as [b t tf]. cbn [rx_byte rx_millis rx_millis_frame] in *.
    pose proof Hsz1 as [Hlen1 Hts1].
    destruct (header_lookup (_syncIdx s1) Hidx1) as [h Hh].
    rewrite (processByte_sync t tf b h s1 Hst1 Hidx1 Hlen1 Hh).
    cbn [mbind option_bind].
    eexists. split; [reflexivity |].
    destruct s1 as [ser ts cb buf fi si st lb lf tm fc ec cs].
    unfold sized, quiet in *. cbn [_syncIdx _parserState _frameBuf _targets _frameCallback
      _frameCount _errorCount _lastFrameTime calls] in *.
    subst st.
    destruct (Byte.eqb b h) eqn:Ebh.
    + apply Byte.byte_dec_bl in Ebh. subst h.
      assert (Hc : si = 0 \/ si = 1 \/ si = 2 \/ si = 3) by lia.
      destruct Hc as [-> | [-> | [-> | ->]]]; cbn in Hh; injection Hh as <-.
      4:{ exfalso. apply Hno. exists pre, []. rewrite <- app_assoc. reflexivity. }
      all: cbv zeta; cbn [Z.eqb Pos.eqb]; fields; rewrite ?length_insert;
        repeat split; try tauto; try lia;
        exists pre; rewrite <- app_assoc; reflexivity.
    + destruct (Byte.eqb b xaa) eqn:Eba.
      * apply Byte.byte_dec_bl in Eba. subst b.
        fields. rewrite ?length_insert. repeat split; try tauto; try lia.
        eexists. reflexivity.
      * fields. repeat split; try tauto; try lia.
        eexists. cbn [take Z.to_nat]. rewrite app_nil_r. reflexivity.
Qed.

(** X10.  Noise in which the header pattern AA FF 03 00 does not occur is
    harmless: it is dropped without an error being counted or anything
    dispatched, the parser is still seeking a header after it, and the
    valid frame that follows is dispatched with the expected targets. *)
Theorem header_free_noise_is_harmless
  (cb : RD03D_FrameCallback) (s : RD03D) (noise rx : list Rx) (k1 k2 k3 : Block) :
  _parserState s = RD03D_SYNC_HEADER ->
  _syncIdx s = 0 ->
  sized s ->
  _frameCallback s = Some cb ->
  ~ contains_header (map rx_byte noise) ->
  map rx_byte rx = frame_bytes k1 k2 k3 ->
  exists s1 s',
    processBytes noise s = Some s1 /\
    _parserState s1 = RD03D_SYNC_HEADER /\
    quiet s s1 /\
    processBytes (noise ++ rx) s = Some s' /\
    calls s' = calls s ++ [spec_invocation cb k1 k2 k3] /\
    _targets s' = spec_targets k1 k2 k3 /\
    _errorCount s' = _errorCount s.
Proof.
  intros Hst Hidx Hsz Hcb Hno Hrx.
  destruct (seeking_tracks_prefix s Hst Hidx Hsz noise Hno)
    as (s1 & E1 & Hst1 & Hidx1 & Hsz1 & Hq1 & Hcb1 & _).
  destruct (frame_from_sync rx k1 k2 k3 s1 Hst1 Hidx1 Hsz1 Hrx) as (t & tf & E).
  exists s1. eexists.
  split; [exact E1 |]. split; [exact Hst1 |]. split; [exact Hq1 |].
  rewrite processBytes_app, E1. cbn [mbind option_bind].
  split; [exact E |].
  destruct Hq1 as (_ & Hec & _ & _ & Hcalls).
  unfold resetParser, dispatched. proj. rewrite Hcb1, Hcb. proj.
  rewrite Hcalls, Hec. repeat split; reflexivity.
Qed.

(** ** Streams of frames *)

(** X11.  Frames sent back to back are each dispatched, in order: a stream
    of [n] valid frames gives [n] callback invocations, one per frame with
    that frame's decode, raises the frame counter by [n] ([uint32_t]
    arithmetic), counts no error and leaves the targets of the last frame in
    place. *)
Theorem back_to_back_frames (cb : RD03D_FrameCallback) (fs : list Frame) :
  forall (s : RD03D) (rx : list Rx),
    _parserState s = RD03D_SYNC_HEADER ->
    0 <= _syncIdx s <= 3 ->
    sized s ->
    _frameCallback s = Some cb ->
    uint32 (_frameCount s) ->
    map rx_byte rx = frames_bytes fs ->
    exists s',
      processBytes rx s = Some s' /\
      calls s' = calls s ++ map (frame_invocation cb) fs /\
      _frameCount s' = u32 (_frameCount s + Z.of_nat (length fs)) /\
      _errorCount s' = _errorCount s /\
      _parserState s' = RD03D_SYNC_HEADER /\
      _targets s' = default (_targets s) (frame_targets <$> last fs).
Proof.
  induction fs as [| [[k1 k2] k3] fs IH]; intros s rx Hst Hidx Hsz Hcb Hfc0 Hrx.
  - destruct rx; [| discriminate Hrx].
    exists s. cbn [length map]. rewrite Z.add_0_r, app_nil_r.
    unfold u32. rewrite Z.mod_small by exact Hfc0. repeat split; auto.
  - cbn [frames_bytes flat_map] in Hrx. fold (frames_bytes fs) in Hrx.
    apply map_eq_app in Hrx as (rx1 & rx2 & -> & Hrx1 & Hrx2).
    destruct (frame_from_sync rx1 k1 k2 k3 s Hst Hidx Hsz Hrx1) as (t & tf & E1).
    destruct (IH (resetParser
                    (dispatched tf k1 k2 k3
                       (with_frameBuf (frame_bytes k1 k2 k3) (with_lastByteTime t s))))
                 rx2) as (s' & E' & Hcalls & Hfc & Hec & Hst' & Hts').
    + reflexivity.
    + simpl. lia.
    + unfold resetParser, dispatched. proj. rewrite Hcb. split; reflexivity.
    + unfold resetParser, dispatched. proj. rewrite Hcb. proj. exact Hcb.
    + unfold resetParser, dispatched. proj. rewrite Hcb. proj.
      unfold uint32, u32. apply Z.mod_pos_bound. lia.
    + exact Hrx2.
    + exists s'. rewrite processBytes_app, E1. cbn [mbind option_bind].
      split; [exact E' |].
      revert Hcalls Hfc Hec Hts'.
      unfold resetParser, dispatched. proj. rewrite Hcb. proj.
      intros Hcalls Hfc Hec Hts'.
      split; [rewrite Hcalls, <- app_assoc; reflexivity |].
      split.
      { rewrite Hfc. unfold u32. rewrite Zplus_mod_idemp_l.
        f_equal. simpl length. lia. }
      split; [exact Hec |]. split; [exact Hst' |].
      rewrite Hts'. rewrite last_cons.
      destruct (last fs); reflexivity.
Qed.

(** A frame-sized run whose last two bytes are not the tail marker, taken
    from a header-seeking state. *)
Lemma bad_frame_from_sync (rx : list Rx) (payload : list byte) (t1 t2 : byte) (s : RD03D) :
  _parserState s = RD03D_SYNC_HEADER ->
  0 <= _syncIdx s <= 3 ->
  sized s ->
  map rx_byte rx = FRAME_HEADER ++ payload ++ [t1; t2] ->
  length payload = 24%nat ->
  [t1; t2] <> FRAME_TAIL ->
  exists t,
    processBytes rx s =
    Some (resetParser
            (with_errorCount (u32 (_errorCount s + 1))
               (with_frameBuf (FRAME_HEADER ++ payload ++ [t1; t2])
                  (with_lastByteTime t s)))).
Proof.
  intros Hst Hidx [Hlen Hts] Hrx Hpay Hbad.
  assert (Hsplit : FRAME_HEADER ++ payload ++ [t1; t2]
                   = FRAME_HEADER ++ (payload ++ [t1]) ++ [t2]).
  { rewrite <- (app_assoc payload). reflexivity. }
  rewrite Hsplit in Hrx.
  apply map_eq_app in Hrx as (rxH & rx' & -> & HrxH & Hrx').
  apply map_eq_app in Hrx' as (rxP & rxT & -> & HrxP & HrxT).
  destruct rxT as [| [bT tT fT] [| r' rxT]]; try discriminate HrxT.
  injection HrxT as ->.
  destruct (header_sync rxH s Hst Hidx Hlen HrxH) as [tH EH].
  rewrite processBytes_app, EH. cbn [mbind option_bind].
  assert (HlenP : length rxP = 25%nat).
  { rewrite <- (length_map rx_byte), HrxP, length_app, Hpay. reflexivity. }
  destruct s as [ser ts cb buf fi si st lb lf tm fc ec cs].
  simpl in Hst, Hidx, Hlen, Hts. subst st.
  fields.
  rewrite processBytes_app.
  edestruct (collect rxP) as [tP EP]; [| | | | rewrite EP].
  - reflexivity.
  - simpl. lia.
  - simpl. rewrite HlenP. lia.
  - fields. rewrite length_inserts. exact Hlen.
  - cbn [mbind option_bind]. fields. rewrite HlenP, HrxP.
    change (Z.to_nat RD03D_FRAME_SIZE) with 30%nat in Hlen.
    do 30 (destruct buf as [| ? buf]; [discriminate Hlen |]).
    destruct buf; [| discriminate Hlen].
    do 24 (destruct payload as [| ? payload]; [discriminate Hpay |]).
    destruct payload; [| discriminate Hpay].
    cbn [processBytes rx_byte rx_millis rx_millis_frame].
    erewrite processByte_read_last; [| reflexivity | reflexivity | reflexivity | reflexivity].
    cbv zeta. fields.
    exists tT.
    destruct (Byte.eqb t1 x55) eqn:E1; [destruct (Byte.eqb t2 xcc) eqn:E2 |].
    + exfalso. apply Hbad.
      apply Byte.byte_dec_bl in E1, E2. subst. reflexivity.
    + reflexivity.
    + reflexivity.
Qed.

(** X12.  A corrupted frame costs only itself.  Thirty bytes that start
    with the header but do not end with the tail marker are counted as one
    error and dropped whole - targets, frame count and callback untouched,
    the payload not searched for another header - and the valid frame right
    behind them is dispatched as usual. *)
Theorem corrupted_frame_costs_only_itself
  (cb : RD03D_FrameCallback) (s : RD03D) (rx1 rx2 : list Rx)
  (payload : list byte) (t1 t2 : byte) (k1 k2 k3 : Block) :
  _parserState s = RD03D_SYNC_HEADER ->
  0 <= _syncIdx s <= 3 ->
  sized s ->
  _frameCallback s = Some cb ->
  map rx_byte rx1 = FRAME_HEADER ++ payload ++ [t1; t2] ->
  length payload = 24%nat ->
  [t1; t2] <> FRAME_TAIL ->
  map rx_byte rx2 = frame_bytes k1 k2 k3 ->
  exists s1 s',
    processBytes rx1 s = Some s1 /\
    _errorCount s1 = u32 (_errorCount s + 1) /\
    _frameCount s1 = _frameCount s /\
    _targets s1 = _targets s /\
    calls s1 = calls s /\
    processBytes (rx1 ++ rx2) s = Some s' /\
    _errorCount s' = u32 (_errorCount s + 1) /\
    _frameCount s' = u32 (_frameCount s + 1) /\
    _targets s' = spec_targets k1 k2 k3 /\
    calls s' = calls s ++ [spec_invocation cb k1 k2 k3].
Proof.
  intros Hst Hidx Hsz Hcb Hrx1 Hpay Hbad Hrx2.
  destruct (bad_frame_from_sync rx1 payload t1 t2 s Hst Hidx Hsz Hrx1 Hpay Hbad) as [t E1].
  pose proof Hsz as [_ Hts].
  edestruct (frame_from_sync rx2 k1 k2 k3) as (t' & tf & E2);
    [| | | exact Hrx2 | ].
  4:{ eexists. eexists. split; [exact E1 |].
      rewrite processBytes_app, E1. cbn [mbind option_bind]. rewrite E2.
      unfold resetParser, dispatched. proj. rewrite Hcb. proj.
      repeat split; reflexivity. }
  - reflexivity.
  - simpl. lia.
  - split; [| exact Hts]. unfold resetParser. proj.
    rewrite !length_app, Hpay. reflexivity.
Qed.

(** ** Frames and the timeout *)

(** A header and part of a payload, taken from a header-seeking state. *)
Lemma partial_frame_collects (rx : list Rx) (r : Rx) (payload : list byte) (s : RD03D) :
  _parserState s = RD03D_SYNC_HEADER ->
  0 <= _syncIdx s <= 3 ->
  sized s ->
  map rx_byte rx = FRAME_HEADER ++ payload ->
  (length payload < 26)%nat ->
  last rx = Some r ->
  exists s1,
    processBytes rx s = Some s1 /\
    _parserState s1 = RD03D_READ_DATA /\
    quiet s s1 /\
    _lastByteTime s1 = rx_millis r /\
    _serial s1 = _serial s /\
    _timeoutMs s1 = _timeoutMs s.
Proof.
  intros Hst Hidx Hsz Hrx Hlen Hlast.
  pose proof Hsz as [Hbuf _].
  assert (Hinv : parser_inv s) by (unfold parser_inv; rewrite Hst; exact Hidx).
  apply map_eq_app in Hrx as (rxH & rxP & -> & HrxH & HrxP).
  destruct (header_sync rxH s Hst Hidx Hbuf HrxH) as [tH EH].
  assert (HlenP : (length rxP < 26)%nat).
  { rewrite <- (length_map rx_byte), HrxP. exact Hlen. }
  edestruct (collect rxP) as [tP EP];
    [| | | | pose proof (processBytes_app rxH rxP s) as Erun;
             rewrite EH in Erun; cbn [mbind option_bind] in Erun;
             rewrite EP in Erun].
  - reflexivity.
  - proj. lia.
  - proj. lia.
  - proj. rewrite length_inserts. exact Hbuf.
  - pose proof (processBytes_lastByteTime _ _ _ r Hsz Hinv Erun Hlast) as Ht.
    eexists. split; [exact Erun |].
    revert Ht. unfold quiet. proj. intros Ht. repeat split; auto.
Qed.

(** X13.  The timeout is the way out of a false start.  When the parser is
    collecting and a polling pass comes more than the timeout after the
    last byte, the partial frame is counted as one error and the bytes of
    that pass are read from a fresh header search: a valid frame among them
    is dispatched. *)
Theorem timeout_recovers
  (cb : RD03D_FrameCallback) (now : Z) (s : RD03D) (rx : list Rx) (k1 k2 k3 : Block) :
  _serial s = true ->
  _parserState s = RD03D_READ_DATA ->
  sized s ->
  _frameCallback s = Some cb ->
  _timeoutMs s < u32 (now - _lastByteTime s) ->
  map rx_byte rx = frame_bytes k1 k2 k3 ->
  exists s',
    update now rx s = Some s' /\
    _errorCount s' = u32 (_errorCount s + 1) /\
    _frameCount s' = u32 (_frameCount s + 1) /\
    _targets s' = spec_targets k1 k2 k3 /\
    calls s' = calls s ++ [spec_invocation cb k1 k2 k3].
Proof.
  intros Hser Hst Hsz Hcb Hlate Hrx.
  unfold update, timed_out. rewrite Hser, Hst. cbn [negb].
  destruct (Z.ltb_spec (_timeoutMs s) (u32 (now - _lastByteTime s))) as [_ | Hge]; [| lia].
  edestruct (frame_from_sync rx k1 k2 k3) as (t & tf & E); [| | | exact Hrx | rewrite E].
  - reflexivity.
  - simpl. lia.
  - exact Hsz.
  - eexists. split; [reflexivity |].
    unfold resetParser, dispatched. proj. rewrite Hcb. proj.
    repeat split; reflexivity.
Qed.

(** X14.  A late polling pass loses a frame that a timely one would have
    dispatched.  When the first part of a valid frame - the header and some
    of the payload - is read in one pass and the next pass starts more than
    the timeout after the last byte read, the first part is abandoned with
    one error and the rest of the frame, now without its header, is dropped:
    no callback runs.  The same bytes read in a single pass are
    dispatched. *)
Theorem late_poll_loses_split_frame
  (cb : RD03D_FrameCallback) (t1 t2 : Z) (s : RD03D) (rx1 rx2 : list Rx) (r : Rx)
  (payload : list byte) (k1 k2 k3 : Block) :
  _serial s = true ->
  _parserState s = RD03D_SYNC_HEADER ->
  0 <= _syncIdx s <= 3 ->
  sized s ->
  _frameCallback s = Some cb ->
  map rx_byte (rx1 ++ rx2) = frame_bytes k1 k2 k3 ->
  map rx_byte rx1 = FRAME_HEADER ++ payload ->
  (length payload < 26)%nat ->
  last rx1 = Some r ->
  _timeoutMs s < u32 (t2 - rx_millis r) ->
  (exists s',
      polls [(t1, rx1); (t2, rx2)] s = Some s' /\
      _errorCount s' = u32 (_errorCount s + 1) /\
      _frameCount s' = _frameCount s /\
      _targets s' = _targets s /\
      calls s' = calls s) /\
  (exists s',
      update t1 (rx1 ++ rx2) s = Some s' /\
      _errorCount s' = _errorCount s /\
      calls s' = calls s ++ [spec_invocation cb k1 k2 k3]).
Proof.
  intros Hser Hst Hidx Hsz Hcb Hrx Hrx1 Hlen Hlast Hlate.
  split.
  - destruct (partial_frame_collects rx1 r payload s Hst Hidx Hsz Hrx1 Hlen Hlast)
      as (s1 & E1 & Hst1 & Hq1 & Ht1 & Hser1 & Htm1).
    destruct Hq1 as (Hfc1 & Hec1 & _ & Hts1 & Hcalls1).
    assert (Hsz1 : sized s1).
    { destruct (processBytes_preserves rx1 s Hsz) as (s1' & E1' & Hsz1' & _).
      - unfold parser_inv. rewrite Hst. exact Hidx.
      - congruence. }
    assert (Hlen2 : Z.of_nat (length rx2) < 30).
    { apply (f_equal (@length byte)) in Hrx, Hrx1.
      rewrite length_map in Hrx, Hrx1. rewrite length_app in Hrx, Hrx1.
      change (length (frame_bytes k1 k2 k3)) with 30%nat in Hrx.
      change (length FRAME_HEADER) with 4%nat in Hrx1. lia. }
    destruct (quiet_run rx2
                (resetParser (with_errorCount (u32 (_errorCount s1 + 1)) s1)))
      as (s' & E' & Hq').
    + exact Hsz1.
    + unfold parser_inv. simpl. lia.
    + unfold until_full, RD03D_FRAME_SIZE. simpl. lia.
    + exists s'. cbn [polls].
      rewrite update_seeking by assumption. rewrite E1. cbn [mbind option_bind].
      unfold update, timed_out. rewrite Hser1, Hser, Hst1, Htm1, Ht1. cbn [negb].
      destruct (Z.ltb_spec (_timeoutMs s) (u32 (t2 - rx_millis r))) as [_ | Hge]; [| lia].
      rewrite E'. cbn [mbind option_bind].
      destruct Hq' as (Hfc' & Hec' & _ & Hts' & Hcalls').
      revert Hfc' Hec' Hts' Hcalls'. unfold resetParser. proj.
      intros Hfc' Hec' Hts' Hcalls'.
      split; [reflexivity |]. repeat split; congruence.
  - rewrite update_seeking by assumption.
    destruct (frame_from_sync (rx1 ++ rx2) k1 k2 k3 s Hst Hidx Hsz Hrx) as (t & tf & E).
    rewrite E. eexists. split; [reflexivity |].
    unfold resetParser, dispatched. proj. rewrite Hcb. proj.
    split; reflexivity.
Qed.

(** X15.  The count counts valid slots wherever they are.  When the first
    block of a frame is empty and the second is not, the callback is handed
    a count of at least 1 although slot 0 is the invalid one; the valid
    targets need not be the first [count] entries of the array. *)
Theorem count_is_not_a_prefix_length
  (cb : RD03D_FrameCallback) (s : RD03D) (rx : list Rx) (k1 k2 k3 : Block) :
  _parserState s = RD03D_SYNC_HEADER ->
  0 <= _syncIdx s <= 3 ->
  sized s ->
  _frameCallback s = Some cb ->
  map rx_byte rx = frame_bytes k1 k2 k3 ->
  rawX k1 = 0 -> rawY k1 = 0 ->
  rawX k2 <> 0 \/ rawY k2 <> 0 ->
  exists s' ts count t0 t1,
    processBytes rx s = Some s' /\
    last (calls s') = Some (mkInvocation cb ts count) /\
    1 <= count /\
    ts !! 0%nat = Some t0 /\ t_valid t0 = false /\
    ts !! 1%nat = Some t1 /\ t_valid t1 = true.
Proof.
  intros Hst Hidx Hsz Hcb Hrx Hx1 Hy1 Hv2.
  destruct (frame_from_sync rx k1 k2 k3 s Hst Hidx Hsz Hrx) as (t & tf & E).
  rewrite E.
  assert (Hk1 : spec_valid k1 = false) by (unfold spec_valid; rewrite Hx1, Hy1; reflexivity).
  apply spec_valid_iff in Hv2.
  eexists. exists (spec_targets k1 k2 k3), (spec_count (spec_targets k1 k2 k3)).
  exists (spec_target k1), (spec_target k2).
  split; [reflexivity |].
  unfold resetParser, dispatched. proj. rewrite Hcb. proj.
  split; [apply last_snoc |].
  unfold spec_count, spec_targets, spec_target. rewrite Hk1, Hv2.
  cbn [List.filter t_valid].
  repeat split; try reflexivity.
  destruct (spec_valid k3); simpl; lia.
Qed.

End Driver.

(** ** The properties at concrete inputs *)

Lemma sign_magnitude_decode_witness :
  0 <= 0 < 3 /\
  sized sample_full /\
  block_at (_frameBuf sample_full) 4 sample_k1 /\
  (rawX sample_k1 <> 0 \/ rawY sample_k1 <> 0) /\
  exists s' t,
    parseTarget sample_atan2f sample_div_PI 0 4 sample_full = Some s' /\
    _targets s' !! Z.to_nat 0 = Some t /\
    t_x t = (if Z.testbit (rawX sample_k1) 15
             then Z.land (rawX sample_k1) 0x7FFF else - Z.land (rawX sample_k1) 0x7FFF) /\
    t_speed t = (if Z.testbit (rawSpeed sample_k1) 15
                 then Z.land (rawSpeed sample_k1) 0x7FFF
                 else - Z.land (rawSpeed sample_k1) 0x7FFF) /\
    (rawX sample_k1 = 0x8010 -> t_x t = 16) /\
    (rawX sample_k1 = 0x0010 -> t_x t = -16).
Proof.
  assert (H1 : 0 <= 0 < 3) by lia.
  assert (H2 : sized sample_full) by (split; reflexivity).
  assert (H3 : block_at (_frameBuf sample_full) 4 sample_k1) by (split; [lia | reflexivity]).
  assert (H4 : rawX sample_k1 <> 0 \/ rawY sample_k1 <> 0) by (left; vm_compute; discriminate).
  split; [exact H1 |]. split; [exact H2 |]. split; [exact H3 |]. split; [exact H4 |].
  exact (sign_magnitude_decode sample_atan2f sample_div_PI 0 4 sample_full sample_k1
           H1 H2 H3 H4).
Defined.

Lemma offset_decode_witness :
  0 <= 2 < 3 /\
  sized sample_full /\
  block_at (_frameBuf sample_full) 20 sample_k3 /\
  (rawX sample_k3 <> 0 \/ rawY sample_k3 <> 0) /\
  exists s' t,
    parseTarget sample_atan2f sample_div_PI 2 20 sample_full = Some s' /\
    _targets s' !! Z.to_nat 2 = Some t /\
    t_y t = rawY sample_k3 - 0x8000 /\
    -32768 <= t_y t <= 32767 /\
    (rawY sample_k3 = 0x8000 -> t_y t = 0) /\
    (rawY sample_k3 = 0x8005 -> t_y t = 5) /\
    (rawY sample_k3 = 0x7FFB -> t_y t = -5).
Proof.
  assert (H1 : 0 <= 2 < 3) by lia.
  assert (H2 : sized sample_full) by (split; reflexivity).
  assert (H3 : block_at (_frameBuf sample_full) 20 sample_k3) by (split; [lia | reflexivity]).
  assert (H4 : rawX sample_k3 <> 0 \/ rawY sample_k3 <> 0) by (left; vm_compute; discriminate).
  split; [exact H1 |]. split; [exact H2 |]. split; [exact H3 |]. split; [exact H4 |].
  exact (offset_decode sample_atan2f sample_div_PI 2 20 sample_full sample_k3 H1 H2 H3 H4).
Defined.

Lemma validity_and_clearing_witness :
  0 <= 1 < 3 /\
  sized sample_full /\
  block_at (_frameBuf sample_full) 12 sample_k2 /\
  exists s' t,
    parseTarget sample_atan2f sample_div_PI 1 12 sample_full = Some s' /\
    _targets s' !! Z.to_nat 1 = Some t /\
    (t_valid t = true <-> rawX sample_k2 <> 0 \/ rawY sample_k2 <> 0) /\
    (rawX sample_k2 = 0 -> rawY sample_k2 = 0 ->
     t_x t = 0 /\ t_y t = 0 /\ t_speed t = 0 /\ t_distanceRaw t = 0 /\
     t_distance t = S754_zero false /\ t_angle t = S754_zero false /\
     t_valid t = false).
Proof.
  assert (H1 : 0 <= 1 < 3) by lia.
  assert (H2 : sized sample_full) by (split; reflexivity).
  assert (H3 : block_at (_frameBuf sample_full) 12 sample_k2) by (split; [lia | reflexivity]).
  split; [exact H1 |]. split; [exact H2 |]. split; [exact H3 |].
  exact (validity_and_clearing sample_atan2f sample_div_PI 1 12 sample_full sample_k2 H1 H2 H3).
Defined.

Lemma sync_seeking_byte_witness :
  _parserState sample_s0 = RD03D_SYNC_HEADER /\
  0 <= _syncIdx sample_s0 <= 3 /\
  length (_frameBuf sample_s0) = Z.to_nat RD03D_FRAME_SIZE /\
  exists s',
    processByte sample_atan2f sample_div_PI 5 5 xaa sample_s0 = Some s' /\
    _syncIdx s' = 1 /\
    _frameBuf s' !! 0%nat = Some xaa.
Proof.
  assert (H1 : _parserState sample_s0 = RD03D_SYNC_HEADER) by reflexivity.
  assert (H2 : 0 <= _syncIdx sample_s0 <= 3) by (simpl; lia).
  assert (H3 : length (_frameBuf sample_s0) = Z.to_nat RD03D_FRAME_SIZE) by reflexivity.
  split; [exact H1 |]. split; [exact H2 |]. split; [exact H3 |].
  destruct (sync_seeking_byte sample_atan2f sample_div_PI 5 5 xaa sample_s0 H1 H2 H3)
    as (s' & E & Hmatch & _).
  exists s'. split; [exact E |].
  destruct (Hmatch eq_refl) as (Hbuf & Hidx & _).
  split; [exact Hidx |]. rewrite Hbuf. reflexivity.
Defined.

Lemma full_buffer_tail_check_witness :
  _parserState sample_last = RD03D_READ_DATA /\
  _frameIdx sample_last = 29 /\
  sized sample_last /\
  exists s',
    processByte sample_atan2f sample_div_PI 5 6 xcc sample_last = Some s' /\
    _parserState s' = RD03D_SYNC_HEADER /\
    _frameCount s' = 1 /\
    _errorCount s' = 0 /\
    length (calls s') = 1%nat.
Proof.
  assert (H1 : _parserState sample_last = RD03D_READ_DATA) by reflexivity.
  assert (H2 : _frameIdx sample_last = 29) by reflexivity.
  assert (H3 : sized sample_last) by (split; reflexivity).
  split; [exact H1 |]. split; [exact H2 |]. split; [exact H3 |].
  destruct (full_buffer_tail_check sample_atan2f sample_div_PI 5 6 xcc sample_last H1 H2 H3)
    as (s' & E & (Hst & _) & Hgood & _).
  exists s'. split; [exact E |]. split; [exact Hst |].
  destruct (Hgood eq_refl) as (_ & Hfc & Hec & Hcalls).
  split; [exact Hfc |]. split; [exact Hec |].
  rewrite Hcalls. reflexivity.
Defined.

Lemma valid_frame_one_callback_witness :
  initial 1%nat sample_s0 /\
  map rx_byte (stamp 7 sample_frame) = frame_bytes sample_k1 sample_k2 sample_k3 /\
  exists s' count,
    processBytes sample_atan2f sample_div_PI (stamp 7 sample_frame) sample_s0 = Some s' /\
    calls s' =
    [mkInvocation 1%nat
       (spec_targets sample_atan2f sample_div_PI sample_k1 sample_k2 sample_k3) count] /\
    _targets s' = spec_targets sample_atan2f sample_div_PI sample_k1 sample_k2 sample_k3 /\
    count = Z.of_nat (length (List.filter t_valid (_targets s'))) /\
    0 <= count <= 3.
Proof.
  assert (H1 : initial 1%nat sample_s0) by (apply fresh_initial; reflexivity).
  assert (H2 : map rx_byte (stamp 7 sample_frame)
               = frame_bytes sample_k1 sample_k2 sample_k3) by reflexivity.
  split; [exact H1 |]. split; [exact H2 |].
  exact (valid_frame_one_callback sample_atan2f sample_div_PI 1%nat sample_s0
           (stamp 7 sample_frame) sample_k1 sample_k2 sample_k3 H1 H2).
Defined.

Lemma frame_after_noise_witness :
  initial 1%nat sample_s0 /\
  exists s1 s',
    processBytes sample_atan2f sample_div_PI (stamp 3 [x00; xaa; x17]) sample_s0 = Some s1 /\
    _parserState s1 = RD03D_SYNC_HEADER /\
    processBytes sample_atan2f sample_div_PI
      (stamp 3 [x00; xaa; x17] ++ stamp 4 sample_frame) sample_s0 = Some s' /\
    calls s' =
    calls s1 ++ [spec_invocation sample_atan2f sample_div_PI 1%nat
                   sample_k1 sample_k2 sample_k3] /\
    _targets s' = spec_targets sample_atan2f sample_div_PI sample_k1 sample_k2 sample_k3.
Proof.
  assert (H1 : initial 1%nat sample_s0) by (apply fresh_initial; reflexivity).
  split; [exact H1 |].
  destruct (frame_after_noise sample_atan2f sample_div_PI 1%nat sample_s0
              (stamp 3 [x00; xaa; x17]) H1) as (s1 & E1 & Hframe).
  assert (Hst : _parserState s1 = RD03D_SYNC_HEADER).
  { vm_compute in E1. injection E1 as <-. reflexivity. }
  destruct (Hframe Hst (stamp 4 sample_frame) sample_k1 sample_k2 sample_k3 eq_refl)
    as (s' & E & Hcalls & Hts).
  exists s1, s'. repeat split; assumption.
Defined.

Lemma truncated_frame_timeout_witness :
  _serial (begin 0 0 sample_s0) = true /\
  _parserState (begin 0 0 sample_s0) = RD03D_SYNC_HEADER /\
  0 <= _syncIdx (begin 0 0 sample_s0) <= 3 /\
  sized (begin 0 0 sample_s0) /\
  map rx_byte (stamp 10 (FRAME_HEADER ++ [x01; x02])) = FRAME_HEADER ++ [x01; x02] /\
  (length [x01; x02] < 26)%nat /\
  last (stamp 10 (FRAME_HEADER ++ [x01; x02])) = Some (mkRx x02 10 10) /\
  _timeoutMs (begin 0 0 sample_s0) < u32 (200 - rx_millis (mkRx x02 10 10)) /\
  exists s1 s2,
    processBytes sample_atan2f sample_div_PI (stamp 10 (FRAME_HEADER ++ [x01; x02]))
      (begin 0 0 sample_s0) = Some s1 /\
    (forall t0, update sample_atan2f sample_div_PI t0
                  (stamp 10 (FRAME_HEADER ++ [x01; x02])) (begin 0 0 sample_s0) = Some s1) /\
    _parserState s1 = RD03D_READ_DATA /\
    update sample_atan2f sample_div_PI 200 [] s1 = Some s2 /\
    _errorCount s2 = u32 (_errorCount (begin 0 0 sample_s0) + 1) /\
    calls s2 = calls (begin 0 0 sample_s0) /\
    _parserState s2 = RD03D_SYNC_HEADER /\
    _syncIdx s2 = 0 /\
    _frameIdx s2 = 0 /\
    (forall rx', update sample_atan2f sample_div_PI 200 rx' s1
                 = processBytes sample_atan2f sample_div_PI rx' s2).
Proof.
  assert (H1 : _serial (begin 0 0 sample_s0) = true) by reflexivity.
  assert (H2 : _parserState (begin 0 0 sample_s0) = RD03D_SYNC_HEADER) by reflexivity.
  assert (H3 : 0 <= _syncIdx (begin 0 0 sample_s0) <= 3) by (simpl; lia).
  assert (H4 : sized (begin 0 0 sample_s0)) by (split; reflexivity).
  assert (H5 : map rx_byte (stamp 10 (FRAME_HEADER ++ [x01; x02]))
               = FRAME_HEADER ++ [x01; x02]) by reflexivity.
  assert (H6 : (length [x01; x02] < 26)%nat) by (simpl; lia).
  assert (H7 : last (stamp 10 (FRAME_HEADER ++ [x01; x02])) = Some (mkRx x02 10 10))
    by reflexivity.
  assert (H8 : _timeoutMs (begin 0 0 sample_s0) < u32 (200 - rx_millis (mkRx x02 10 10)))
    by (vm_compute; reflexivity).
  split; [exact H1 |]. split; [exact H2 |]. split; [exact H3 |]. split; [exact H4 |].
  split; [exact H5 |]. split; [exact H6 |]. split; [exact H7 |]. split; [exact H8 |].
  exact (truncated_frame_timeout sample_atan2f sample_div_PI (begin 0 0 sample_s0)
           (stamp 10 (FRAME_HEADER ++ [x01; x02])) (mkRx x02 10 10) [x01; x02] 200
           H1 H2 H3 H4 H5 H6 H7 H8).
Defined.

Lemma buffer_indexing_in_bounds_witness :
  length (replicate 30 x00) = Z.to_nat RD03D_FRAME_SIZE /\
  exists s',
    processBytes sample_atan2f sample_div_PI (stamp 0 (sample_frame ++ sample_frame))
      (RD03D_new (replicate 30 x00)) = Some s' /\
    sized s' /\ parser_inv s'.
Proof.
  assert (H1 : length (replicate 30 x00) = Z.to_nat RD03D_FRAME_SIZE) by reflexivity.
  split; [exact H1 |].
  exact (proj2 (proj2 (proj2 (buffer_indexing_in_bounds sample_atan2f sample_div_PI)))
           (replicate 30 x00) (stamp 0 (sample_frame ++ sample_frame)) H1).
Defined.

(** ** Noise that contains a header *)

(** C2 as stated does not hold on any platform.  A header pattern in the
    noise puts the parser in the Collecting state; the next 26 bytes, the
    beginning of the valid frame, are taken as payload of a frame whose tail
    check fails, and the rest of the valid frame is too short to be
    dispatched: the callback never runs. *)
Lemma noise_with_header_loses_frame :
  ~ (exists atan2f div_PI, noise_robustness atan2f div_PI).
Proof.
  intros (atan2f & div_PI & H).
  destruct (H (replicate 30 x00) 1%nat (stamp 0 FRAME_HEADER)
              (stamp 0 (frame_bytes sample_k2 sample_k2 sample_k2))
              sample_k2 sample_k2 sample_k2 eq_refl eq_refl)
    as (s' & earlier & E & Hcalls).
  vm_compute in E. injection E as <-.
  apply (f_equal length) in Hcalls.
  rewrite length_app in Hcalls. simpl in Hcalls. lia.
Qed.

(** ** The further properties at concrete inputs *)

Lemma decoded_field_ranges_witness :
  0 <= 0 < 3 /\
  sized sample_full /\
  block_at (_frameBuf sample_full) 4 sample_k1 /\
  exists t,
    parseTarget sample_atan2f sample_div_PI 0 4 sample_full
    = Some (with_targets (<[Z.to_nat 0 := t]> (_targets sample_full)) sample_full) /\
    -32767 <= t_x t <= 32767 /\
    -32768 <= t_y t <= 32767 /\
    -32767 <= t_speed t <= 32767 /\
    0 <= t_distanceRaw t <= 65535 /\
    (t_valid t = true -> t_distanceRaw t = rawDistanceCode sample_k1).
Proof.
  assert (H1 : 0 <= 0 < 3) by lia.
  assert (H2 : sized sample_full) by (split; reflexivity).
  assert (H3 : block_at (_frameBuf sample_full) 4 sample_k1) by (split; [lia | reflexivity]).
  split; [exact H1 |]. split; [exact H2 |]. split; [exact H3 |].
  exact (decoded_field_ranges sample_atan2f sample_div_PI 0 4 sample_full sample_k1 H1 H2 H3).
Defined.

Lemma queries_after_frame_witness :
  _parserState sample_s0 = RD03D_SYNC_HEADER /\
  0 <= _syncIdx sample_s0 <= 3 /\
  sized sample_s0 /\
  _frameCallback sample_s0 = Some 1%nat /\
  map rx_byte (stamp 7 sample_frame) = frame_bytes sample_k1 sample_k2 sample_k3 /\
  exists s',
    processBytes sample_atan2f sample_div_PI (stamp 7 sample_frame) sample_s0 = Some s' /\
    getTarget 1 s' = Some (spec_target sample_atan2f sample_div_PI sample_k2) /\
    getTarget 3 s' = None /\
    getFrameCount s' = 1.
Proof.
  assert (H1 : _parserState sample_s0 = RD03D_SYNC_HEADER) by reflexivity.
  assert (H2 : 0 <= _syncIdx sample_s0 <= 3) by (simpl; lia).
  assert (H3 : sized sample_s0) by (split; reflexivity).
  assert (H4 : _frameCallback sample_s0 = Some 1%nat) by reflexivity.
  assert (H5 : map rx_byte (stamp 7 sample_frame)
               = frame_bytes sample_k1 sample_k2 sample_k3) by reflexivity.
  split; [exact H1 |]. split; [exact H2 |]. split; [exact H3 |]. split; [exact H4 |].
  split; [exact H5 |].
  destruct (queries_after_frame sample_atan2f sample_div_PI 1%nat sample_s0
              (stamp 7 sample_frame) sample_k1 sample_k2 sample_k3 H1 H2 H3 H4 H5)
    as (s' & count & E & _ & _ & G1 & _ & Gout & _ & _ & _ & Gfc & _).
  exists s'. split; [exact E |]. split; [exact G1 |].
  split; [apply Gout; lia | exact Gfc].
Defined.

Lemma callback_single_slot_witness :
  _parserState sample_s0 = RD03D_SYNC_HEADER /\
  0 <= _syncIdx sample_s0 <= 3 /\
  sized sample_s0 /\
  map rx_byte (stamp 7 sample_frame) = frame_bytes sample_k1 sample_k2 sample_k3 /\
  (exists s',
      processBytes sample_atan2f sample_div_PI (stamp 7 sample_frame)
        (onFrame (Some 3%nat) (onFrame (Some 2%nat) sample_s0)) = Some s' /\
      calls s' = calls sample_s0 ++
                 [spec_invocation sample_atan2f sample_div_PI 3%nat
                    sample_k1 sample_k2 sample_k3]) /\
  (exists s',
      processBytes sample_atan2f sample_div_PI (stamp 7 sample_frame)
        (onFrame None (onFrame (Some 2%nat) sample_s0)) = Some s' /\
      calls s' = calls sample_s0 /\
      _targets s' = spec_targets sample_atan2f sample_div_PI sample_k1 sample_k2 sample_k3 /\
      _frameCount s' = u32 (_frameCount sample_s0 + 1)).
Proof.
  assert (H1 : _parserState sample_s0 = RD03D_SYNC_HEADER) by reflexivity.
  assert (H2 : 0 <= _syncIdx sample_s0 <= 3) by (simpl; lia).
  assert (H3 : sized sample_s0) by (split; reflexivity).
  assert (H4 : map rx_byte (stamp 7 sample_frame)
               = frame_bytes sample_k1 sample_k2 sample_k3) by reflexivity.
  split; [exact H1 |]. split; [exact H2 |]. split; [exact H3 |]. split; [exact H4 |].
  exact (callback_single_slot sample_atan2f sample_div_PI 2%nat 3%nat sample_s0
           (stamp 7 sample_frame) sample_k1 sample_k2 sample_k3 H1 H2 H3 H4).
Defined.

Lemma begin_restarts_witness :
  sized sample_last /\
  _frameCallback sample_last = Some 1%nat /\
  map rx_byte (stamp 7 sample_frame) = frame_bytes sample_k1 sample_k2 sample_k3 /\
  _parserState sample_last = RD03D_READ_DATA /\
  isConnected (u32 (6 + 999)) (begin 5 6 sample_last) = true /\
  exists s',
    processBytes sample_atan2f sample_div_PI (stamp 7 sample_frame) (begin 5 6 sample_last)
    = Some s' /\
    calls s' = calls sample_last ++
               [spec_invocation sample_atan2f sample_div_PI 1%nat
                  sample_k1 sample_k2 sample_k3].
Proof.
  assert (H1 : sized sample_last) by (split; reflexivity).
  assert (H2 : _frameCallback sample_last = Some 1%nat) by reflexivity.
  assert (H3 : map rx_byte (stamp 7 sample_frame)
               = frame_bytes sample_k1 sample_k2 sample_k3) by reflexivity.
  split; [exact H1 |]. split; [exact H2 |]. split; [exact H3 |].
  split; [reflexivity |].
  destruct (begin_restarts sample_atan2f sample_div_PI 5 6 1%nat sample_last
              (stamp 7 sample_frame) sample_k1 sample_k2 sample_k3 H1 H2 H3)
    as (_ & _ & _ & _ & Hconn & s' & E & Hcalls & _).
  split.
  - rewrite (Hconn 999); [reflexivity | unfold uint32; lia | unfold uint32; lia].
  - exists s'. split; [exact E | exact Hcalls].
Defined.

Lemma connected_after_frame_witness :
  _parserState sample_s0 = RD03D_SYNC_HEADER /\
  0 <= _syncIdx sample_s0 <= 3 /\
  sized sample_s0 /\
  map rx_byte (stamp 4294967000 sample_frame) = frame_bytes sample_k1 sample_k2 sample_k3 /\
  last (stamp 4294967000 sample_frame) = Some (mkRx xcc 4294967000 4294967000) /\
  uint32 (rx_millis_frame (mkRx xcc 4294967000 4294967000)) /\
  uint32 999 /\
  exists s',
    processBytes sample_atan2f sample_div_PI (stamp 4294967000 sample_frame) sample_s0
    = Some s' /\
    isConnected (u32 (rx_millis_frame (mkRx xcc 4294967000 4294967000) + 999)) s'
    = (999 <? 1000).
Proof.
  assert (H1 : _parserState sample_s0 = RD03D_SYNC_HEADER) by reflexivity.
  assert (H2 : 0 <= _syncIdx sample_s0 <= 3) by (simpl; lia).
  assert (H3 : sized sample_s0) by (split; reflexivity).
  assert (H4 : map rx_byte (stamp 4294967000 sample_frame)
               = frame_bytes sample_k1 sample_k2 sample_k3) by reflexivity.
  assert (H5 : last (stamp 4294967000 sample_frame)
               = Some (mkRx xcc 4294967000 4294967000)) by reflexivity.
  assert (H6 : uint32 (rx_millis_frame (mkRx xcc 4294967000 4294967000)))
    by (unfold uint32; simpl; lia).
  assert (H7 : uint32 999) by (unfold uint32; lia).
  split; [exact H1 |]. split; [exact H2 |]. split; [exact H3 |]. split; [exact H4 |].
  split; [exact H5 |]. split; [exact H6 |]. split; [exact H7 |].
  exact (connected_after_frame sample_atan2f sample_div_PI sample_s0
           (stamp 4294967000 sample_frame) (mkRx xcc 4294967000 4294967000)
           sample_k1 sample_k2 sample_k3 999 H1 H2 H3 H4 H5 H6 H7).
Defined.

Lemma timeout_threshold_witness :
  0 <= 250 < 65536 /\
  0 <= 249 < 65536 /\
  _serial (with_lastByteTime 4294967290 (with_serial true sample_last)) = true /\
  _parserState (with_lastByteTime 4294967290 (with_serial true sample_last))
  = RD03D_READ_DATA /\
  uint32 (_lastByteTime (with_lastByteTime 4294967290 (with_serial true sample_last))) /\
  uint32 250 /\
  update sample_atan2f sample_div_PI 244 []
    (setTimeout 250 (with_lastByteTime 4294967290 (with_serial true sample_last)))
  = Some (setTimeout 250 (with_lastByteTime 4294967290 (with_serial true sample_last))) /\
  exists s',
    update sample_atan2f sample_div_PI 244 []
      (setTimeout 249 (with_lastByteTime 4294967290 (with_serial true sample_last)))
    = Some s' /\
    _parserState s' = RD03D_SYNC_HEADER /\
    _errorCount s' = 1.
Proof.
  assert (H1 : _serial (with_lastByteTime 4294967290 (with_serial true sample_last)) = true)
    by reflexivity.
  assert (H2 : _parserState (with_lastByteTime 4294967290 (with_serial true sample_last))
               = RD03D_READ_DATA) by reflexivity.
  assert (H3 : uint32 (_lastByteTime
                         (with_lastByteTime 4294967290 (with_serial true sample_last))))
    by (unfold uint32; simpl; lia).
  assert (H4 : uint32 250) by (unfold uint32; lia).
  assert (R1 : 0 <= 250 < 65536) by lia.
  assert (R2 : 0 <= 249 < 65536) by lia.
  split; [exact R1 |]. split; [exact R2 |].
  split; [exact H1 |]. split; [exact H2 |]. split; [exact H3 |]. split; [exact H4 |].
  split.
  - apply (proj1 (timeout_threshold sample_atan2f sample_div_PI 250 250
                    (with_lastByteTime 4294967290 (with_serial true sample_last))
                    R1 H1 H2 H3 H4)).
    lia.
  - destruct (proj2 (timeout_threshold sample_atan2f sample_div_PI 249 250
                       (with_lastByteTime 4294967290 (with_serial true sample_last))
                       R2 H1 H2 H3 H4))
      as (s' & E & Hst & _ & Hec & _); [lia |].
    exists s'. split; [exact E |]. split; [exact Hst | exact Hec].
Defined.

Lemma polling_in_bounds_witness :
  sized (begin 0 0 sample_s0) /\
  parser_inv (begin 0 0 sample_s0) /\
  exists s',
    polls sample_atan2f sample_div_PI
      [(0, stamp 0 sample_frame); (500, stamp 500 [xaa; x01]); (900, stamp 900 sample_frame)]
      (begin 0 0 sample_s0) = Some s' /\
    sized s' /\ parser_inv s'.
Proof.
  assert (H1 : sized (begin 0 0 sample_s0)) by (split; reflexivity).
  assert (H2 : parser_inv (begin 0 0 sample_s0)) by (unfold parser_inv; simpl; lia).
  split; [exact H1 |]. split; [exact H2 |].
  exact (polling_in_bounds sample_atan2f sample_div_PI
           [(0, stamp 0 sample_frame); (500, stamp 500 [xaa; x01]); (900, stamp 900 sample_frame)]
           (begin 0 0 sample_s0) H1 H2).
Defined.

Lemma polling_split_delivery_witness :
  exists s1,
    sized (begin 0 0 sample_s0) /\
    parser_inv (begin 0 0 sample_s0) /\
    _serial (begin 0 0 sample_s0) = true /\
    update sample_atan2f sample_div_PI 0 (stamp 0 (take 10 sample_frame)) (begin 0 0 sample_s0)
    = Some s1 /\
    timed_out 50 s1 = false /\
    polls sample_atan2f sample_div_PI
      [(0, stamp 0 (take 10 sample_frame)); (50, stamp 50 (drop 10 sample_frame))]
      (begin 0 0 sample_s0)
    = update sample_atan2f sample_div_PI 0
        (stamp 0 (take 10 sample_frame) ++ stamp 50 (drop 10 sample_frame))
        (begin 0 0 sample_s0).
Proof.
  assert (H1 : sized (begin 0 0 sample_s0)) by (split; reflexivity).
  assert (H2 : parser_inv (begin 0 0 sample_s0)) by (unfold parser_inv; simpl; lia).
  assert (H3 : _serial (begin 0 0 sample_s0) = true) by reflexivity.
  eexists.
  split; [exact H1 |]. split; [exact H2 |]. split; [exact H3 |].
  assert (H4 : update sample_atan2f sample_div_PI 0 (stamp 0 (take 10 sample_frame))
                 (begin 0 0 sample_s0)
               = Some (with_lastByteTime 0
                         (with_frameIdx 10
                            (with_syncIdx 4
                               (with_parserState RD03D_READ_DATA
                                  (with_frameBuf
                                     (take 10 sample_frame ++ replicate 20 x00)
                                     (begin 0 0 sample_s0)))))))
    by reflexivity.
  split; [exact H4 |].
  assert (H5 : timed_out 50
                 (with_lastByteTime 0
                    (with_frameIdx 10
                       (with_syncIdx 4
                          (with_parserState RD03D_READ_DATA
                             (with_frameBuf
                                (take 10 sample_frame ++ replicate 20 x00)
                                (begin 0 0 sample_s0)))))) = false)
    by reflexivity.
  split; [exact H5 |].
  exact (polling_split_delivery sample_atan2f sample_div_PI 0 50
           (stamp 0 (take 10 sample_frame)) (stamp 50 (drop 10 sample_frame))
           (begin 0 0 sample_s0) _ H1 H2 H3 H4 H5).
Defined.

Lemma no_event_before_full_witness :
  sized sample_s0 /\
  parser_inv sample_s0 /\
  Z.of_nat (length (stamp 0 (take 29 sample_frame))) < until_full sample_s0 /\
  exists s',
    processBytes sample_atan2f sample_div_PI (stamp 0 (take 29 sample_frame)) sample_s0
    = Some s' /\
    _frameCount s' = _frameCount sample_s0 /\
    _errorCount s' = _errorCount sample_s0 /\
    _targets s' = _targets sample_s0 /\
    calls s' = calls sample_s0.
Proof.
  assert (H1 : sized sample_s0) by (split; reflexivity).
  assert (H2 : parser_inv sample_s0) by (unfold parser_inv; simpl; lia).
  assert (H3 : Z.of_nat (length (stamp 0 (take 29 sample_frame))) < until_full sample_s0)
    by (vm_compute; reflexivity).
  split; [exact H1 |]. split; [exact H2 |]. split; [exact H3 |].
  exact (proj2 (no_event_before_full sample_atan2f sample_div_PI
                  (stamp 0 (take 29 sample_frame)) sample_s0 H1 H2 H3)).
Defined.

Lemma header_free_noise_is_harmless_witness :
  _parserState sample_s0 = RD03D_SYNC_HEADER /\
  _syncIdx sample_s0 = 0 /\
  sized sample_s0 /\
  _frameCallback sample_s0 = Some 1%nat /\
  ~ contains_header (map rx_byte (stamp 3 [x00; xaa; xff; x03; x17])) /\
  map rx_byte (stamp 4 sample_frame) = frame_bytes sample_k1 sample_k2 sample_k3 /\
  exists s',
    processBytes sample_atan2f sample_div_PI
      (stamp 3 [x00; xaa; xff; x03; x17] ++ stamp 4 sample_frame) sample_s0 = Some s' /\
    calls s' = calls sample_s0 ++
               [spec_invocation sample_atan2f sample_div_PI 1%nat
                  sample_k1 sample_k2 sample_k3] /\
    _errorCount s' = _errorCount sample_s0.
Proof.
  assert (H1 : _parserState sample_s0 = RD03D_SYNC_HEADER) by reflexivity.
  assert (H2 : _syncIdx sample_s0 = 0) by reflexivity.
  assert (H3 : sized sample_s0) by (split; reflexivity).
  assert (H4 : _frameCallback sample_s0 = Some 1%nat) by reflexivity.
  assert (H5 : ~ contains_header (map rx_byte (stamp 3 [x00; xaa; xff; x03; x17]))).
  { intros (pre & post & H). simpl in H.
    do 6 (destruct pre as [| ? pre]; [simpl in H; discriminate H |]).
    simpl in H. discriminate H. }
  assert (H6 : map rx_byte (stamp 4 sample_frame)
               = frame_bytes sample_k1 sample_k2 sample_k3) by reflexivity.
  split; [exact H1 |]. split; [exact H2 |]. split; [exact H3 |]. split; [exact H4 |].
  split; [exact H5 |]. split; [exact H6 |].
  destruct (header_free_noise_is_harmless sample_atan2f sample_div_PI 1%nat sample_s0
              (stamp 3 [x00; xaa; xff; x03; x17]) (stamp 4 sample_frame)
              sample_k1 sample_k2 sample_k3 H1 H2 H3 H4 H5 H6)
    as (s1 & s' & _ & _ & _ & E & Hcalls & _ & Hec).
  exists s'. split; [exact E |]. split; [exact Hcalls | exact Hec].
Defined.

Lemma back_to_back_frames_witness :
  _parserState sample_s0 = RD03D_SYNC_HEADER /\
  0 <= _syncIdx sample_s0 <= 3 /\
  sized sample_s0 /\
  _frameCallback sample_s0 = Some 1%nat /\
  uint32 (_frameCount sample_s0) /\
  map rx_byte
    (stamp 0 (frames_bytes [(sample_k1, sample_k2, sample_k3); (sample_k3, sample_k2, sample_k1)]))
  = frames_bytes [(sample_k1, sample_k2, sample_k3); (sample_k3, sample_k2, sample_k1)] /\
  exists s',
    processBytes sample_atan2f sample_div_PI
      (stamp 0 (frames_bytes
                  [(sample_k1, sample_k2, sample_k3); (sample_k3, sample_k2, sample_k1)]))
      sample_s0 = Some s' /\
    length (calls s') = 2%nat /\
    _frameCount s' = 2 /\
    _targets s' = spec_targets sample_atan2f sample_div_PI sample_k3 sample_k2 sample_k1.
Proof.
  assert (H1 : _parserState sample_s0 = RD03D_SYNC_HEADER) by reflexivity.
  assert (H2 : 0 <= _syncIdx sample_s0 <= 3) by (simpl; lia).
  assert (H3 : sized sample_s0) by (split; reflexivity).
  assert (H4 : _frameCallback sample_s0 = Some 1%nat) by reflexivity.
  assert (H5 : uint32 (_frameCount sample_s0)) by (unfold uint32; simpl; lia).
  assert (H6 : map rx_byte
                 (stamp 0 (frames_bytes
                             [(sample_k1, sample_k2, sample_k3);
                              (sample_k3, sample_k2, sample_k1)]))
               = frames_bytes
                   [(sample_k1, sample_k2, sample_k3); (sample_k3, sample_k2, sample_k1)])
    by reflexivity.
  split; [exact H1 |]. split; [exact H2 |]. split; [exact H3 |]. split; [exact H4 |].
  split; [exact H5 |]. split; [exact H6 |].
  destruct (back_to_back_frames sample_atan2f sample_div_PI 1%nat
              [(sample_k1, sample_k2, sample_k3); (sample_k3, sample_k2, sample_k1)]
              sample_s0 _ H1 H2 H3 H4 H5 H6)
    as (s' & E & Hcalls & Hfc & _ & _ & Hts).
  exists s'. split; [exact E |].
  split; [rewrite Hcalls; reflexivity |].
  split; [rewrite Hfc; reflexivity | exact Hts].
Defined.

Lemma corrupted_frame_costs_only_itself_witness :
  _parserState sample_s0 = RD03D_SYNC_HEADER /\
  0 <= _syncIdx sample_s0 <= 3 /\
  sized sample_s0 /\
  _frameCallback sample_s0 = Some 1%nat /\
  map rx_byte (stamp 0 (FRAME_HEADER ++ replicate 24 xaa ++ [x55; x00]))
  = FRAME_HEADER ++ replicate 24 xaa ++ [x55; x00] /\
  length (replicate 24 xaa) = 24%nat /\
  [x55; x00] <> FRAME_TAIL /\
  map rx_byte (stamp 1 sample_frame) = frame_bytes sample_k1 sample_k2 sample_k3 /\
  exists s',
    processBytes sample_atan2f sample_div_PI
      (stamp 0 (FRAME_HEADER ++ replicate 24 xaa ++ [x55; x00]) ++ stamp 1 sample_frame)
      sample_s0 = Some s' /\
    _errorCount s' = 1 /\
    _frameCount s' = 1 /\
    calls s' = [spec_invocation sample_atan2f sample_div_PI 1%nat
                  sample_k1 sample_k2 sample_k3].
Proof.
  assert (H1 : _parserState sample_s0 = RD03D_SYNC_HEADER) by reflexivity.
  assert (H2 : 0 <= _syncIdx sample_s0 <= 3) by (simpl; lia).
  assert (H3 : sized sample_s0) by (split; reflexivity).
  assert (H4 : _frameCallback sample_s0 = Some 1%nat) by reflexivity.
  assert (H5 : map rx_byte (stamp 0 (FRAME_HEADER ++ replicate 24 xaa ++ [x55; x00]))
               = FRAME_HEADER ++ replicate 24 xaa ++ [x55; x00]) by reflexivity.
  assert (H6 : length (replicate 24 xaa) = 24%nat) by reflexivity.
  assert (H7 : [x55; x00] <> FRAME_TAIL) by discriminate.
  assert (H8 : map rx_byte (stamp 1 sample_frame)
               = frame_bytes sample_k1 sample_k2 sample_k3) by reflexivity.
  split; [exact H1 |]. split; [exact H2 |]. split; [exact H3 |]. split; [exact H4 |].
  split; [exact H5 |]. split; [exact H6 |]. split; [exact H7 |]. split; [exact H8 |].
  destruct (corrupted_frame_costs_only_itself sample_atan2f sample_div_PI 1%nat sample_s0
              _ (stamp 1 sample_frame) (replicate 24 xaa) x55 x00
              sample_k1 sample_k2 sample_k3 H1 H2 H3 H4 H5 H6 H7 H8)
    as (s1 & s' & _ & _ & _ & _ & _ & E & Hec & Hfc & _ & Hcalls).
  exists s'. split; [exact E |]. split; [exact Hec |]. split; [exact Hfc | exact Hcalls].
Defined.

Lemma timeout_recovers_witness :
  _serial (with_serial true sample_last) = true /\
  _parserState (with_serial true sample_last) = RD03D_READ_DATA /\
  sized (with_serial true sample_last) /\
  _frameCallback (with_serial true sample_last) = Some 1%nat /\
  _timeoutMs (with_serial true sample_last)
  < u32 (101 - _lastByteTime (with_serial true sample_last)) /\
  map rx_byte (stamp 101 sample_frame) = frame_bytes sample_k1 sample_k2 sample_k3 /\
  exists s',
    update sample_atan2f sample_div_PI 101 (stamp 101 sample_frame)
      (with_serial true sample_last) = Some s' /\
    _errorCount s' = u32 (_errorCount (with_serial true sample_last) + 1) /\
    _frameCount s' = u32 (_frameCount (with_serial true sample_last) + 1) /\
    _targets s' = spec_targets sample_atan2f sample_div_PI sample_k1 sample_k2 sample_k3 /\
    calls s' = calls (with_serial true sample_last) ++
               [spec_invocation sample_atan2f sample_div_PI 1%nat
                  sample_k1 sample_k2 sample_k3].
Proof.
  assert (H1 : _serial (with_serial true sample_last) = true) by reflexivity.
  assert (H2 : _parserState (with_serial true sample_last) = RD03D_READ_DATA) by reflexivity.
  assert (H3 : sized (with_serial true sample_last)) by (split; reflexivity).
  assert (H4 : _frameCallback (with_serial true sample_last) = Some 1%nat) by reflexivity.
  assert (H5 : _timeoutMs (with_serial true sample_last)
               < u32 (101 - _lastByteTime (with_serial true sample_last)))
    by (vm_compute; reflexivity).
  assert (H6 : map rx_byte (stamp 101 sample_frame)
               = frame_bytes sample_k1 sample_k2 sample_k3) by reflexivity.
  split; [exact H1 |]. split; [exact H2 |]. split; [exact H3 |]. split; [exact H4 |].
  split; [exact H5 |]. split; [exact H6 |].
  exact (timeout_recovers sample_atan2f sample_div_PI 1%nat 101
           (with_serial true sample_last) (stamp 101 sample_frame)
           sample_k1 sample_k2 sample_k3 H1 H2 H3 H4 H5 H6).
Defined.

Lemma late_poll_loses_split_frame_witness :
  _serial (begin 0 0 sample_s0) = true /\
  _parserState (begin 0 0 sample_s0) = RD03D_SYNC_HEADER /\
  0 <= _syncIdx (begin 0 0 sample_s0) <= 3 /\
  sized (begin 0 0 sample_s0) /\
  _frameCallback (begin 0 0 sample_s0) = Some 1%nat /\
  map rx_byte (stamp 10 (take 12 sample_frame) ++ stamp 200 (drop 12 sample_frame))
  = frame_bytes sample_k1 sample_k2 sample_k3 /\
  map rx_byte (stamp 10 (take 12 sample_frame)) = FRAME_HEADER ++ block_bytes sample_k1 /\
  (length (block_bytes sample_k1) < 26)%nat /\
  last (stamp 10 (take 12 sample_frame)) = Some (mkRx x01 10 10) /\
  _timeoutMs (begin 0 0 sample_s0) < u32 (200 - rx_millis (mkRx x01 10 10)) /\
  exists s',
    polls sample_atan2f sample_div_PI
      [(10, stamp 10 (take 12 sample_frame)); (200, stamp 200 (drop 12 sample_frame))]
      (begin 0 0 sample_s0) = Some s' /\
    _errorCount s' = 1 /\
    calls s' = [].
Proof.
  assert (H1 : _serial (begin 0 0 sample_s0) = true) by reflexivity.
  assert (H2 : _parserState (begin 0 0 sample_s0) = RD03D_SYNC_HEADER) by reflexivity.
  assert (H3 : 0 <= _syncIdx (begin 0 0 sample_s0) <= 3) by (simpl; lia).
  assert (H4 : sized (begin 0 0 sample_s0)) by (split; reflexivity).
  assert (H5 : _frameCallback (begin 0 0 sample_s0) = Some 1%nat) by reflexivity.
  assert (H6 : map rx_byte (stamp 10 (take 12 sample_frame) ++ stamp 200 (drop 12 sample_frame))
               = frame_bytes sample_k1 sample_k2 sample_k3) by reflexivity.
  assert (H7 : map rx_byte (stamp 10 (take 12 sample_frame))
               = FRAME_HEADER ++ block_bytes sample_k1) by reflexivity.
  assert (H8 : (length (block_bytes sample_k1) < 26)%nat) by (simpl; lia).
  assert (H9 : last (stamp 10 (take 12 sample_frame)) = Some (mkRx x01 10 10)) by reflexivity.
  assert (H10 : _timeoutMs (begin 0 0 sample_s0) < u32 (200 - rx_millis (mkRx x01 10 10)))
    by (vm_compute; reflexivity).
  split; [exact H1 |]. split; [exact H2 |]. split; [exact H3 |]. split; [exact H4 |].
  split; [exact H5 |]. split; [exact H6 |]. split; [exact H7 |]. split; [exact H8 |].
  split; [exact H9 |]. split; [exact H10 |].
  destruct (proj1 (late_poll_loses_split_frame sample_atan2f sample_div_PI 1%nat 10 200
                     (begin 0 0 sample_s0) _ _ (mkRx x01 10 10) (block_bytes sample_k1)
                     sample_k1 sample_k2 sample_k3 H1 H2 H3 H4 H5 H6 H7 H8 H9 H10))
    as (s' & E & Hec & _ & _ & Hcalls).
  exists s'. split; [exact E |]. split; [exact Hec | exact Hcalls].
Defined.

Lemma count_is_not_a_prefix_length_witness :
  _parserState sample_s0 = RD03D_SYNC_HEADER /\
  0 <= _syncIdx sample_s0 <= 3 /\
  sized sample_s0 /\
  _frameCallback sample_s0 = Some 1%nat /\
  map rx_byte (stamp 0 (frame_bytes sample_k2 sample_k1 sample_k2))
  = frame_bytes sample_k2 sample_k1 sample_k2 /\
  rawX sample_k2 = 0 /\ rawY sample_k2 = 0 /\
  (rawX sample_k1 <> 0 \/ rawY sample_k1 <> 0) /\
  exists s' ts count t0 t1,
    processBytes sample_atan2f sample_div_PI
      (stamp 0 (frame_bytes sample_k2 sample_k1 sample_k2)) sample_s0 = Some s' /\
    last (calls s') = Some (mkInvocation 1%nat ts count) /\
    1 <= count /\
    ts !! 0%nat = Some t0 /\ t_valid t0 = false /\
    ts !! 1%nat = Some t1 /\ t_valid t1 = true.
Proof.
  assert (H1 : _parserState sample_s0 = RD03D_SYNC_HEADER) by reflexivity.
  assert (H2 : 0 <= _syncIdx sample_s0 <= 3) by (simpl; lia).
  assert (H3 : sized sample_s0) by (split; reflexivity).
  assert (H4 : _frameCallback sample_s0 = Some 1%nat) by reflexivity.
  assert (H5 : map rx_byte (stamp 0 (frame_bytes sample_k2 sample_k1 sample_k2))
               = frame_bytes sample_k2 sample_k1 sample_k2) by reflexivity.
  assert (H6 : rawX sample_k2 = 0) by reflexivity.
  assert (H7 : rawY sample_k2 = 0) by reflexivity.
  assert (H8 : rawX sample_k1 <> 0 \/ rawY sample_k1 <> 0) by (left; vm_compute; discriminate).
  split; [exact H1 |]. split; [exact H2 |]. split; [exact H3 |]. split; [exact H4 |].
  split; [exact H5 |]. split; [exact H6 |]. split; [exact H7 |]. split; [exact H8 |].
  exact (count_is_not_a_prefix_length sample_atan2f sample_div_PI 1%nat sample_s0
           (stamp 0 (frame_bytes sample_k2 sample_k1 sample_k2))
           sample_k2 sample_k1 sample_k2 H1 H2 H3 H4 H5 H6 H7 H8).
Defined.
